(** * Server-settings resolution of the dev command

    A shallow embedding of [src/utils/detect-server-settings.mjs]
    ([detectServerSettings] and the helpers it calls) and of the telemetry
    boundary exercised by [tests/integration/telemetry.test.ts].

    JavaScript values are an inductive type; objects are finite maps from
    property names to values, so that an absent key and a key holding
    [undefined] stay distinct.  Asynchronous, effectful code is written in a
    small state-and-exception monad over a trace of observable events (log
    lines, port probes, file reads). *)

From Stdlib Require Import ZArith String List Bool Lia.
From stdpp Require Import gmap strings list fin_maps.

Local Set Warnings "-register-all".
Local Open Scope string_scope.
Local Open Scope Z_scope.

(** ** JavaScript values *)

Inductive jsval :=
| JUndefined
| JNull
| JBool (b : bool)
| JNum (n : Z)
| JStr (s : string)
| JArr (l : list jsval)
| JObj (o : gmap string jsval).

Abbreviation obj := (gmap string jsval).

(** [o.k]: reading a property that is absent yields [undefined]. *)
Definition prop (o : obj) (k : string) : jsval := default JUndefined (o !! k).

(** Numbers are the integers (port numbers); [0] is the only falsy one. *)
Definition truthy (v : jsval) : bool :=
  match v with
  | JUndefined | JNull => false
  | JBool b => b
  | JNum n => negb (n =? 0)
  | JStr s => negb (String.eqb s EmptyString)
  | JArr _ | JObj _ => true
  end.

Inductive jstype := TUndefined | TObject | TBoolean | TNumber | TString.

Definition typeof (v : jsval) : jstype :=
  match v with
  | JUndefined => TUndefined
  | JNull | JArr _ | JObj _ => TObject
  | JBool _ => TBoolean
  | JNum _ => TNumber
  | JStr _ => TString
  end.

Definition is_string (v : jsval) : bool :=
  match v with JStr _ => true | _ => false end.

Definition is_number (v : jsval) : bool :=
  match v with JNum _ => true | _ => false end.

(** [a || b] and [a && b] return one of their operands. *)
Definition js_or (a b : jsval) : jsval := if truthy a then a else b.
Definition js_and (a b : jsval) : jsval := if truthy a then b else a.

(** [a === b].  Arrays and objects compare by reference; the operands
    compared in this module are a configuration value against a literal, a
    second configuration value or a freshly acquired port, which are never
    the same reference, so they compare unequal. *)
Definition strict_eq (a b : jsval) : bool :=
  match a, b with
  | JUndefined, JUndefined => true
  | JNull, JNull => true
  | JBool x, JBool y => Bool.eqb x y
  | JNum x, JNum y => x =? y
  | JStr x, JStr y => String.eqb x y
  | _, _ => false
  end.

(** [{...v}] inside an object literal: only an object contributes keys. *)
Definition spread (v : jsval) (into : obj) : obj :=
  match v with
  | JObj o => o ∪ into
  | _ => into
  end.

(** ** Messages

    A message is a sequence of chunks, some of them coloured by chalk. *)

Inductive chunk :=
| Plain (s : string)
| Magenta (s : string)
| Green (s : string)
| Yellow (s : string).

Abbreviation text := (list chunk).

Definition formatProperty (str : string) : chunk := Magenta ("'" +:+ str +:+ "'").
Definition formatValue (str : string) : chunk := Green ("'" +:+ str +:+ "'").

(** The characters of a message, colours dropped. *)
Definition chunk_string (c : chunk) : string :=
  match c with
  | Plain s | Magenta s | Green s | Yellow s => s
  end.

Definition plain (t : text) : string :=
  fold_right (fun c acc => chunk_string c +:+ acc) EmptyString t.

(** [mentions s t]: [s] occurs in the characters of [t]. *)
Definition mentions (s : string) (t : text) : bool :=
  match String.index 0 s (plain t) with
  | Some _ => true
  | None => false
  end.

Inductive js_error :=
| TypeError (message : text)
| Error (message : text).

Definition error_message (e : js_error) : text :=
  match e with
  | TypeError m | Error m => m
  end.

(** ** Effects *)

Inductive event :=
| EvLog (line : text)
| EvProbe (port : Z) (free : bool)
| EvAnyPort (port : Z)
| EvReadFile (path : string)
| EvBuildSettings
| EvPrompt (choices : nat)
| EvGetFramework (id : jsval)
| EvInternalFunctionsDir (base : string).

Definition is_port_event (e : event) : bool :=
  match e with
  | EvProbe _ _ | EvAnyPort _ => true
  | _ => false
  end.

(** [probes]: how many times the operating system was asked for a port of
    its own choice. *)
Record state := { probes : nat; trace : list event }.

Definition initial : state := {| probes := 0; trace := [] |}.

Inductive outcome (A : Type) :=
| Ok (a : A)
| Throw (e : js_error).
Arguments Ok {A} a.
Arguments Throw {A} e.

Definition M (A : Type) : Type := state -> outcome A * state.

Definition ret {A} (a : A) : M A := fun st => (Ok a, st).

Definition throw {A} (e : js_error) : M A := fun st => (Throw e, st).

Definition bind {A B} (c : M A) (k : A -> M B) : M B :=
  fun st =>
    match c st with
    | (Ok a, st') => k a st'
    | (Throw e, st') => (Throw e, st')
    end.

Declare Scope js_scope.
Delimit Scope js_scope with js.
Notation "x <- c ;; k" := (bind c (fun x => k))
  (at level 100, c at next level, right associativity) : js_scope.
Notation "c ;; k" := (bind c (fun _ => k))
  (at level 100, right associativity) : js_scope.
Local Open Scope js_scope.

Definition emit (e : event) : M unit :=
  fun st => (Ok tt, {| probes := probes st; trace := (trace st ++ [e])%list |}).

Definition log (line : text) : M unit := emit (EvLog line).

Definition when (b : bool) (c : M unit) : M unit := if b then c else ret tt.

(** ** Collaborators outside this module *)

Module BuildInfo.
(** The [Settings] objects of [@netlify/build-info], at the fields read
    here. *)
Record Framework := { id : string; name : string }.

Record Settings := {
  devCommand : jsval;
  dist : jsval;
  env : jsval;
  framework : Framework;
  frameworkPort : jsval;
  plugins_from_config_file : option (list string);
  plugins_recommended : option (list string);
  pollingStrategies : jsval;
  packagePath : option string;
}.

Record Workspace := { isRoot : bool }.

Record Project := {
  workspace : option Workspace;
  jsWorkspaceRoot : string;
  getBuildSettings : list Settings;
}.
End BuildInfo.

(** What the process finds around itself: constants of
    [command-helpers.mjs], Node built-ins, the network stack, the file
    system, the user at the prompt and the framework registry. *)
Record world := {
  NETLIFYDEVWARN : string;
  EOL : string;
  cwd : string;
  path_join : string -> string -> string;
  path_resolve : string -> string;
  path_dirname : string -> string;
  path_relative : string -> string -> string;
  (** ports that cannot be bound at the moment *)
  occupied : Z -> bool;
  (** the port the operating system picks at its n-th free choice *)
  ephemeral : nat -> Z;
  (** contents of a file, or the message of the read error *)
  readFile : string -> string + string;
  (** the entry picked at the selection prompt *)
  prompt : list BuildInfo.Settings -> BuildInfo.Settings;
  (** [getFramework]: [inr] is the message it throws for an unsupported id *)
  getFramework : jsval -> BuildInfo.Framework + string;
  getSettings : BuildInfo.Framework -> BuildInfo.Settings;
  (** path of the internal functions directory when it exists *)
  internalFunctionsDir : string -> jsval;
}.

(** ** The module [detect-server-settings.mjs] *)

Definition dquote : string := String (Ascii.ascii_of_nat 34) EmptyString.

Definition DEFAULT_PORT : Z := 8888.
Definition DEFAULT_STATIC_PORT : Z := 3999.

Definition validateStringProperty (devConfig : obj) (property : string) : M unit :=
  if truthy (prop devConfig property) && negb (is_string (prop devConfig property)) then
    let formattedProperty := formatProperty property in
    throw (TypeError [Plain "Invalid "; formattedProperty;
                      Plain " option provided in config. The value of ";
                      formattedProperty; Plain " option must be a string"])
  else ret tt.

Definition validateNumberProperty (devConfig : obj) (property : string) : M unit :=
  if truthy (prop devConfig property) && negb (is_number (prop devConfig property)) then
    let formattedProperty := formatProperty property in
    throw (TypeError [Plain "Invalid "; formattedProperty;
                      Plain " option provided in config. The value of ";
                      formattedProperty; Plain " option must be an integer"])
  else ret tt.

Definition port_conflict_message : text :=
  [formatProperty "port"; Plain " and "; formatProperty "targetPort";
   Plain " options cannot have same values. Please consult the documentation for more details: https://cli.netlify.com/netlify-dev#netlifytoml-dev-block"].

Definition validateFrameworkConfig (devConfig : obj) : M unit :=
  validateStringProperty devConfig "command" ;;
  validateNumberProperty devConfig "port" ;;
  validateNumberProperty devConfig "targetPort" ;;
  if truthy (prop devConfig "targetPort")
     && strict_eq (prop devConfig "targetPort") (prop devConfig "port")
  then throw (Error port_conflict_message)
  else ret tt.

Definition validateConfiguredPort (devConfig : obj) (detectedPort : jsval) : M unit :=
  if truthy (prop devConfig "port") && strict_eq (prop devConfig "port") detectedPort then
    let formattedPort := formatProperty "port" in
    throw (Error [Plain "The "; formattedPort;
                  Plain " option you specified conflicts with the port of your application. Please use a different value for ";
                  formattedPort])
  else ret tt.

(** Retrieve a list of plugins to auto install. *)
Definition pluginsToAlwaysInstall : list string := ["@netlify/plugin-nextjs"].

Definition includes (l : list string) (x : string) : bool :=
  existsb (String.eqb x) l.

Definition getPluginsToAutoInstall
    (pluginsInstalled pluginsRecommended : option (list string)) : list string :=
  let pluginsInstalled := default [] pluginsInstalled in
  let pluginsRecommended := default [] pluginsRecommended in
  fold_left
    (fun acc plugin =>
       if includes pluginsInstalled plugin && negb (includes pluginsToAlwaysInstall plugin)
       then acc else (acc ++ [plugin])%list)
    pluginsRecommended [].

(** Retrieves the settings from a framework. *)
Definition getSettingsFromDetectedSettings (settings : BuildInfo.Settings) : obj :=
  <["command" := BuildInfo.devCommand settings]>
  (<["frameworkPort" := BuildInfo.frameworkPort settings]>
  (<["dist" := BuildInfo.dist settings]>
  (<["framework" := JStr (BuildInfo.name (BuildInfo.framework settings))]>
  (<["env" := BuildInfo.env settings]>
  (<["pollingStrategies" := BuildInfo.pollingStrategies settings]>
  (<["plugins" :=
       JArr (JStr <$> getPluginsToAutoInstall
                        (BuildInfo.plugins_from_config_file settings)
                        (BuildInfo.plugins_recommended settings))]> ∅)))))).

Definition hasCommandAndTargetPort (devConfig : obj) : jsval :=
  js_and (prop devConfig "command") (prop devConfig "targetPort").

Section Resolution.

Variable W : world.

Definition WARN : chunk := Plain (NETLIFYDEVWARN W).

(** A bind attempt on one given port. *)
Definition probePort (p : Z) : M bool :=
  fun st =>
    let free := negb (occupied W p) in
    (Ok free, {| probes := probes st; trace := (trace st ++ [EvProbe p free])%list |}).

(** A port of the operating system's choice. *)
Definition anyPort : M Z :=
  fun st =>
    let p := ephemeral W (probes st) in
    (Ok p, {| probes := S (probes st); trace := (trace st ++ [EvAnyPort p])%list |}).

(** [getPort({ port })] of the [get-port] package: the preferred port when
    it can be bound, otherwise a port of the operating system's choice;
    preference [0] asks for the latter at once.  The package declares the
    preference a number; a call with anything else is rejected. *)
Definition getPort (port : jsval) : M Z :=
  match port with
  | JNum p =>
      if p =? 0 then anyPort
      else free <- probePort p ;; if free then ret p else anyPort
  | _ => throw (TypeError [Plain "Expected the port preference to be a number"])
  end.

(** Modelled from the spec: [acquirePort] of [utils/dev.mjs], which is not
    among the sources.  "If configuredPort is set, verify it is free; if
    occupied, fail immediately with errorMessage (no automatic fallback).
    If unset, probe for any free port starting from defaultPort."  A
    configured value that is no port number cannot be verified free and
    fails the same way. *)
Definition acquirePort (configuredPort : jsval) (defaultPort : Z)
    (errorMessage : text) : M Z :=
  if truthy configuredPort then
    match configuredPort with
    | JNum p =>
        free <- probePort p ;;
        if free then ret p else throw (Error errorMessage)
    | _ => throw (Error errorMessage)
    end
  else getPort (JNum defaultPort).

(** [getInternalFunctionsDir({ base })] of [utils/functions/functions.mjs]. *)
Definition getInternalFunctionsDir (base : string) : M jsval :=
  emit (EvInternalFunctionsDir base) ;;
  ret (internalFunctionsDir W base).

Definition readHttpsSettings_shape : text :=
  [Plain "https options should be an object with "; formatProperty "keyFile";
   Plain " and "; formatProperty "certFile"; Plain " string properties"].

(** Both files are read, and both reads settle, before either result is
    looked at ([Promise.allSettled]). *)
Definition readHttpsSettings (options : jsval) : M jsval :=
  match options with
  | JNull =>
      throw (TypeError [Plain "Cannot read properties of null (reading 'keyFile')"])
  | JObj o =>
      if negb (truthy (prop o "keyFile")) || negb (truthy (prop o "certFile")) then
        throw (TypeError readHttpsSettings_shape)
      else
        match prop o "keyFile", prop o "certFile" with
        | JStr keyFile, JStr certFile =>
            emit (EvReadFile keyFile) ;;
            emit (EvReadFile certFile) ;;
            match readFile W keyFile, readFile W certFile with
            | inr keyError, _ =>
                throw (Error [Plain ("Error reading private key file: " +:+ keyError)])
            | inl _, inr certError =>
                throw (Error [Plain ("Error reading certificate file: " +:+ certError)])
            | inl key, inl cert =>
                ret (JObj (<["key" := JStr key]>
                          (<["cert" := JStr cert]>
                          (<["keyFilePath" := JStr (path_resolve W keyFile)]>
                          (<["certFilePath" := JStr (path_resolve W certFile)]> ∅)))))
            end
        | JStr _, _ =>
            throw (TypeError [Plain "Certificate file configuration should be a string"])
        | _, _ =>
            throw (TypeError [Plain "Private key file configuration should be a string"])
        end
  | _ => throw (TypeError readHttpsSettings_shape)
  end.

Definition getDefaultDist : M string :=
  log [WARN; Plain " Unable to determine public folder to serve files from. Using current working directory"] ;;
  log [WARN; Plain " Setup a netlify.toml file with a [dev] section to specify your dev server settings."] ;;
  log [WARN; Plain " See docs at: https://cli.netlify.com/netlify-dev#project-detection"] ;;
  ret (cwd W).

Definition getStaticServerPort (devConfig : obj) : M Z :=
  acquirePort (prop devConfig "staticServerPort") DEFAULT_STATIC_PORT
    [Plain "Could not acquire configured static server port"].

(** [a || b || getDefaultDist()] *)
Definition or_default_dist (a b : jsval) : M jsval :=
  if truthy a then ret a
  else if truthy b then ret b
  else d <- getDefaultDist ;; ret (JStr d).

(** [path.relative] rejects an argument that is not a string. *)
Definition relative_to_project (projectDir : string) (dist : jsval) : M string :=
  match dist with
  | JStr d => ret (path_relative W (path_dirname W projectDir) d)
  | _ => throw (TypeError [Plain "The " ; Plain dquote; Plain "to"; Plain dquote;
                           Plain " argument must be of type string"])
  end.

Definition handleStaticServer (devConfig options : obj) (projectDir : string) : M obj :=
  validateNumberProperty devConfig "staticServerPort" ;;
  (if truthy (prop options "dir") then
     log [WARN; Plain " Using simple static server because "; formatProperty "--dir";
          Plain " flag was specified"]
   else if strict_eq (prop devConfig "framework") (JStr "#static") then
     log [WARN; Plain " Using simple static server because ";
          formatProperty "[dev.framework]"; Plain " was set to "; formatValue "#static"]
   else ret tt) ;;
  when (truthy (prop devConfig "targetPort"))
    (log [WARN; Plain " Ignoring "; formatProperty "targetPort";
          Plain " setting since using a simple static server."; Plain (EOL W); WARN;
          Plain " Use --staticServerPort or [dev.staticServerPort] to configure the static server port"]) ;;
  dist <- or_default_dist (prop options "dir") (prop devConfig "publish") ;;
  relative <- relative_to_project projectDir dist ;;
  log [WARN; Plain " Running static server from "; Plain dquote; Plain relative; Plain dquote] ;;
  frameworkPort <- getStaticServerPort devConfig ;;
  ret (<["dist" := dist]>
      (<["frameworkPort" := JNum frameworkPort]>
      (<["useStaticServer" := JBool true]>
      (spread (js_and (prop devConfig "command")
                      (JObj {["command" := prop devConfig "command"]})) ∅)))).

Definition in_workspace (project : BuildInfo.Project) (setting : BuildInfo.Settings) : bool :=
  match BuildInfo.workspace project with
  | Some ws =>
      if negb (BuildInfo.isRoot ws) then
        String.prefix
          (path_join W (BuildInfo.jsWorkspaceRoot project)
             (default EmptyString (BuildInfo.packagePath setting)))
          (cwd W)
      else true
  | None => true
  end.

Definition detectable (project : BuildInfo.Project) : list BuildInfo.Settings :=
  List.filter (fun setting => truthy (BuildInfo.devCommand setting))
    (List.filter (in_workspace project) (BuildInfo.getBuildSettings project)).

(** [None] is the [undefined] the function returns when nothing matches. *)
Definition detectFrameworkSettings (project : BuildInfo.Project) : M (option obj) :=
  emit EvBuildSettings ;;
  let settings := detectable project in
  match settings with
  | [] => ret None
  | [only] => ret (Some (getSettingsFromDetectedSettings only))
  | _ =>
      (* multiple matching detectors, make the user choose *)
      emit (EvPrompt (length settings)) ;;
      let chosenSettings := prompt W settings in
      log [Plain "Add ";
           Magenta ("'framework = " +:+ dquote
                    +:+ BuildInfo.id (BuildInfo.framework chosenSettings)
                    +:+ dquote +:+ "'");
           Plain " to the [dev] section of your netlify.toml to avoid this selection prompt next time"] ;;
      ret (Some (getSettingsFromDetectedSettings chosenSettings))
  end.

Definition custom_framework_message : text :=
  [formatProperty "command"; Plain " and "; formatProperty "targetPort";
   Plain " properties are required when "; formatProperty "framework";
   Plain " is set to "; formatValue "#custom"].

(** Creates settings for the custom framework. *)
Definition handleCustomFramework (devConfig : obj) : M obj :=
  if negb (truthy (hasCommandAndTargetPort devConfig)) then
    throw (Error custom_framework_message)
  else
    dist <- or_default_dist (prop devConfig "publish") JUndefined ;;
    ret (<["command" := prop devConfig "command"]>
        (<["frameworkPort" := prop devConfig "targetPort"]>
        (<["dist" := dist]>
        (<["framework" := JStr "#custom"]>
        (<["pollingStrategies" := js_or (prop devConfig "pollingStrategies") (JArr [])]> ∅))))).

(** A destructuring default applies to [undefined] only. *)
Definition or_if_undefined (v d : jsval) : jsval :=
  match v with JUndefined => d | _ => v end.

Definition mergeSettings (devConfig : obj) (frameworkSettings : option obj) : M obj :=
  let frameworkSettings := default ∅ frameworkSettings in
  let frameworkCommand := prop frameworkSettings "command" in
  let dist := prop frameworkSettings "dist" in
  let env := prop frameworkSettings "env" in
  let framework := prop frameworkSettings "framework" in
  let frameworkDetectedPort := prop frameworkSettings "frameworkPort" in
  let pollingStrategies :=
    or_if_undefined (prop frameworkSettings "pollingStrategies") (JArr []) in
  let command := js_or (prop devConfig "command") frameworkCommand in
  let frameworkPort := js_or (prop devConfig "targetPort") frameworkDetectedPort in
  (* if the framework doesn't start a server, we use a static one *)
  let useStaticServer := negb (truthy (js_and command frameworkPort)) in
  port <- (if useStaticServer
           then p <- getStaticServerPort devConfig ;; ret (JNum p)
           else ret frameworkPort) ;;
  dist <- or_default_dist (prop devConfig "publish") dist ;;
  ret (<["command" := command]>
      (<["frameworkPort" := port]>
      (<["dist" := dist]>
      (<["framework" := framework]>
      (<["env" := env]>
      (<["pollingStrategies" := pollingStrategies]>
      (<["useStaticServer" := JBool useStaticServer]> ∅))))))).

(** Handles a forced framework and retrieves the settings for it. *)
Definition handleForcedFramework (devConfig : obj) : M obj :=
  emit (EvGetFramework (prop devConfig "framework")) ;;
  (* this throws if [devConfig.framework] is not a supported framework *)
  match getFramework W (prop devConfig "framework") with
  | inr unsupported => throw (Error [Plain unsupported])
  | inl framework =>
      let settings := getSettings W framework in
      let frameworkSettings := getSettingsFromDetectedSettings settings in
      mergeSettings devConfig (Some frameworkSettings)
  end.

(** The branch of [detectServerSettings] taken for [framework = '#auto']. *)
Definition autoSettings (devConfig options : obj) (project : BuildInfo.Project)
    (projectDir : string) : M obj :=
  let runDetection := negb (truthy (hasCommandAndTargetPort devConfig)) in
  frameworkSettings <-
    (if runDetection then detectFrameworkSettings project else ret None) ;;
  settings <-
    match frameworkSettings with
    | None =>
        log [WARN; Plain " No app server detected. Using simple static server"] ;;
        handleStaticServer devConfig options projectDir
    | Some detected =>
        validateFrameworkConfig devConfig ;;
        mergeSettings devConfig (Some detected)
    end ;;
  (* settings.plugins = frameworkSettings && frameworkSettings.plugins *)
  ret (<["plugins" := match frameworkSettings with
                       | None => JUndefined
                       | Some detected => prop detected "plugins"
                       end]> settings).

(** The four-way choice at the head of [detectServerSettings]. *)
Definition branchSettings (devConfig options : obj) (project : BuildInfo.Project)
    (projectDir : string) : M obj :=
  if truthy (prop options "dir") || strict_eq (prop devConfig "framework") (JStr "#static") then
    (* serving files statically without a framework server *)
    handleStaticServer devConfig options projectDir
  else if strict_eq (prop devConfig "framework") (JStr "#auto") then
    (* this is the default CLI behavior *)
    autoSettings devConfig options project projectDir
  else if strict_eq (prop devConfig "framework") (JStr "#custom") then
    validateFrameworkConfig devConfig ;;
    (* when the users wants to configure [command] and [targetPort] *)
    handleCustomFramework devConfig
  else if truthy (prop devConfig "framework") then
    validateFrameworkConfig devConfig ;;
    (* the user explicitly configures a framework, e.g. framework = gatsby *)
    handleForcedFramework devConfig
  else ret ∅.

(** Everything after the choice: the conflict check, the proxy port, the
    functions server and the certificate. *)
Definition finishSettings (devConfig : obj) (projectDir : string) (settings : obj) : M obj :=
  validateConfiguredPort devConfig (prop settings "frameworkPort") ;;
  acquiredPort <- acquirePort (prop devConfig "port") DEFAULT_PORT
                    [Plain "Could not acquire required "; formatProperty "port"] ;;
  let functionsDir := js_or (prop devConfig "functions") (prop settings "functions") in
  internalFunctionsDir <- getInternalFunctionsDir projectDir ;;
  let shouldStartFunctionsServer := truthy (js_or functionsDir internalFunctionsDir) in
  let result :=
    <["functions" := functionsDir]>
    (<["jwtRolePath" := js_or (prop devConfig "jwtRolePath")
                              (JStr "app_metadata.authorization.roles")]>
    (<["jwtSecret" := js_or (prop devConfig "jwtSecret") (JStr "secret")]>
    (<["port" := JNum acquiredPort]> settings))) in
  result <-
    (if shouldStartFunctionsServer then
       functionsPort <- getPort (js_or (prop devConfig "functionsPort") (JNum 0)) ;;
       ret (<["functionsPort" := JNum functionsPort]> result)
     else ret result) ;;
  if truthy (prop devConfig "https") then
    https <- readHttpsSettings (prop devConfig "https") ;;
    ret (<["https" := https]> result)
  else ret result.

(** Get the server settings based on the flags and the devConfig. *)
Definition detectServerSettings (devConfig options : obj)
    (project : BuildInfo.Project) (projectDir : string) : M obj :=
  validateStringProperty devConfig "framework" ;;
  settings <- branchSettings devConfig options project projectDir ;;
  finishSettings devConfig projectDir settings.

End Resolution.


(** ** The telemetry boundary *)

Module Telemetry.

(** [name] and [version] of [package.json]. *)
Record package := { name : string; version : string }.

(** The body and headers of a tracking request, as the integration test
    reads them. *)
Record request := {
  method : string;
  url : string;
  user_agent : string;
  event : string;
  anonymousId : string;
  properties : obj;
}.

(** User-level settings persisted across runs: the opt-out flag and the
    per-install anonymous identifier. *)
Record user_settings := {
  telemetryDisabled : bool;
  userId : option string;
}.

Record surroundings := {
  (** the API base URL; events go to [<api>/track] *)
  api : string;
  (** what the UUID generator returns when asked for a new identifier *)
  generated_uuid : string;
  (** status with which the collector answers *)
  respond : request -> nat;
  nodejsVersion : string;
}.

Record process := { settings : user_settings; sent : list request }.

Inductive flag := TelemetryDisable | TelemetryEnable.

Definition is_hex (c : Ascii.ascii) : bool :=
  let n := Ascii.nat_of_ascii c in
  ((48 <=? n) && (n <=? 57) || (97 <=? n) && (n <=? 102)
   || (65 <=? n) && (n <=? 70))%nat.

Definition is_char (x : Ascii.ascii) (c : Ascii.ascii) : bool := Ascii.eqb x c.

Definition is_variant (c : Ascii.ascii) : bool :=
  existsb (Ascii.eqb c) (list_ascii_of_string "89abAB").

Fixpoint matches (pattern : list (Ascii.ascii -> bool)) (s : string) : bool :=
  match pattern, s with
  | [], EmptyString => true
  | p :: pattern', String c s' => p c && matches pattern' s'
  | _, _ => false
  end.

Definition dash : Ascii.ascii -> bool := is_char (Ascii.ascii_of_nat 45).
Definition four : Ascii.ascii -> bool := is_char (Ascii.ascii_of_nat 52).

(** The layout of a version-4 UUID: xxxxxxxx-xxxx-4xxx-yxxx-xxxxxxxxxxxx,
    x a hexadecimal digit and y one of 8, 9, a, b. *)
Definition is_uuid_v4 (id : string) : bool :=
  matches
    (repeat is_hex 8 ++ [dash] ++ repeat is_hex 4 ++ [dash]
     ++ [four] ++ repeat is_hex 3 ++ [dash]
     ++ [is_variant] ++ repeat is_hex 3 ++ [dash] ++ repeat is_hex 12)%list
    id.

Section Reporter.

Variable P : package.
Variable S : surroundings.

(** Modelled from the spec: the anonymous identifier, "a stable
    per-install anonymous identifier" with "load-or-generate-on-first-run"
    semantics; the reporter module is not part of the embedded sources. *)
Definition anonymous_id (u : user_settings) : string * user_settings :=
  match userId u with
  | Some id => (id, u)
  | None =>
      (generated_uuid S,
       {| telemetryDisabled := telemetryDisabled u;
          userId := Some (generated_uuid S) |})
  end.

(** Modelled from the spec: "success is any 2xx". *)
Definition delivered (r : request) : bool :=
  ((200 <=? respond S r) && (respond S r <? 300))%nat.

(** Modelled from the spec: the telemetry reporter, absent from the
    sources.  "POSTs anonymized usage events to a remote collector, gated
    by an opt-in/opt-out flag"; the request is "a POST request to
    <api>/track with a JSON body { event, anonymousId, properties } and a
    user-agent header of the form <cli-name>/<cli-version>"; "failures
    are swallowed", so the collector's answer changes nothing. *)
Definition track (eventName : string) (p : process) : process :=
  if telemetryDisabled (settings p) then p
  else
    let (id, u) := anonymous_id (settings p) in
    let r := {| method := "POST";
                url := api S +:+ "/track";
                user_agent := name P +:+ "/" +:+ version P;
                event := "cli:" +:+ eventName;
                anonymousId := id;
                properties := <["cliVersion" := JStr (version P)]>
                              (<["nodejsVersion" := JStr (nodejsVersion S)]> ∅) |} in
    (* delivery failures are swallowed *)
    let _ := delivered r in
    {| settings := u; sent := (sent p ++ [r])%list |}.

Definition set_telemetryDisabled (b : bool) (p : process) : process :=
  {| settings := {| telemetryDisabled := b; userId := userId (settings p) |};
     sent := sent p |}.

(** Modelled from the spec: one invocation of the CLI, whose main
    program is absent from the sources.  "--telemetry-enable /
    --telemetry-disable flags toggle the opt-in flag persisted in
    user-level settings"; enabling is itself reported, as the event
    'cli:user_telemetryEnabled'.  Without such a flag the command runs
    and is reported ("telemetry is a side channel invoked around every
    command invocation"), subject to the opt-out flag. *)
Definition invoke (f : option flag) (command : option string)
    (u : user_settings) : process :=
  let p := {| settings := u; sent := [] |} in
  match f with
  | Some TelemetryDisable =>
      let p := set_telemetryDisabled true p in
      match command with
      | Some _ => track "command" p
      | None => p
      end
  | Some TelemetryEnable =>
      track "user_telemetryEnabled" (set_telemetryDisabled false p)
  | None =>
      match command with
      | Some _ => track "command" p
      | None => p
      end
  end.

End Reporter.

Definition netlify_cli : package := {| name := "netlify-cli"; version := "17.2.2" |}.

Definition test_surroundings : surroundings :=
  {| api := "http://localhost/api/v1";
     generated_uuid := "3b12f1df-5232-4804-897e-917bf397618a";
     respond := fun _ => 200%nat;
     nodejsVersion := "v18.18.0" |}.

Definition first_run : user_settings :=
  {| telemetryDisabled := true; userId := None |}.

End Telemetry.

(** ** Plugins added to the configuration *)

(** [plugin.package]: reading a property of [undefined] or [null] throws;
    a value that is no object has no such property. *)
Definition package_of (plugin : jsval) : outcome jsval :=
  match plugin with
  | JObj o => Ok (prop o "package")
  | JUndefined | JNull =>
      Throw (TypeError [Plain "Cannot read properties of undefined (reading 'package')"])
  | _ => Ok JUndefined
  end.

(** [existingPlugins.map((plugin) => plugin.package)] *)
Fixpoint packages_of (plugins : list jsval) : outcome (list jsval) :=
  match plugins with
  | [] => Ok []
  | plugin :: rest =>
      match package_of plugin with
      | Throw e => Throw e
      | Ok name =>
          match packages_of rest with
          | Throw e => Throw e
          | Ok names => Ok (name :: names)
          end
      end
  end.

(** [existingPluginNames.has(pluginName)] *)
Definition has (names : list jsval) (pluginName : jsval) : bool :=
  existsb (strict_eq pluginName) names.

(** The entry added for a plugin that is not declared yet. *)
Definition config_plugin (pluginName : jsval) : jsval :=
  JObj (<["package" := pluginName]>
       (<["origin" := JStr "config"]>
       (<["inputs" := JObj ∅]> ∅))).

(** [settings.plugins.map(...).filter(Boolean)] *)
Definition newPlugins (existingPluginNames pluginNames : list jsval) : list jsval :=
  config_plugin <$> List.filter (fun pluginName => negb (has existingPluginNames pluginName))
                      pluginNames.

(** Returns a copy of the provided config with any plugins provided by the
    server settings. *)
Definition getConfigWithPlugins (config settings : obj) : outcome obj :=
  if negb (truthy (prop settings "plugins")) then Ok config
  else
    (* const { plugins: existingPlugins = [] } = config *)
    match or_if_undefined (prop config "plugins") (JArr []) with
    | JArr existingPlugins =>
        match packages_of existingPlugins with
        | Throw e => Throw e
        | Ok existingPluginNames =>
            match prop settings "plugins" with
            | JArr pluginNames =>
                (* [...newPlugins, ...config.plugins] *)
                match prop config "plugins" with
                | JArr declared =>
                    Ok (<["plugins" :=
                            JArr (newPlugins existingPluginNames pluginNames ++ declared)]>
                          config)
                | _ => Throw (TypeError [Plain "config.plugins is not iterable"])
                end
            | _ => Throw (TypeError [Plain "settings.plugins.map is not a function"])
            end
        end
    | _ => Throw (TypeError [Plain "existingPlugins.map is not a function"])
    end.

(** ** Running the build ([runNetlifyBuild] and its timelines) *)

Module Build.

(** What the build module does to the outside: deleting, copying, running
    the build, starting the framework server, reporting an error. *)
Inductive event :=
| Rm (path : string)
| CopyFile (src : jsval) (dest : string) (copied : bool)
| BuildSite (options : obj)
| StartDev (options : obj)
| StartFrameworkServer (settings : obj)
| ReportError (message : string).

(** [settings] is the one settings object the caller handed over: the
    callback given to the build writes to it. *)
Record state := { settings : obj; trace : list event }.

Definition B (A : Type) : Type := state -> outcome A * state.

Definition ret {A} (a : A) : B A := fun st => (Ok a, st).

Definition throw {A} (e : js_error) : B A := fun st => (Throw e, st).

Definition bind {A B'} (c : B A) (k : A -> B B') : B B' :=
  fun st =>
    match c st with
    | (Ok a, st') => k a st'
    | (Throw e, st') => (Throw e, st')
    end.

(** [try { c } catch { handler }] *)
Definition catch {A} (c : B A) (handler : B A) : B A :=
  fun st =>
    match c st with
    | (Ok a, st') => (Ok a, st')
    | (Throw _, st') => handler st'
    end.

Definition emit (e : event) : B unit :=
  fun st => (Ok tt, {| settings := settings st; trace := (trace st ++ [e])%list |}).

Definition read_settings : B obj := fun st => (Ok (settings st), st).

Definition write_settings (k : string) (v : jsval) : B unit :=
  fun st => (Ok tt, {| settings := <[k := v]> (settings st); trace := trace st |}).

Declare Scope build_scope.
Notation "x <- c ;; k" := (bind c (fun x => k))
  (at level 100, c at next level, right associativity) : build_scope.
Notation "c ;; k" := (bind c (fun _ => k))
  (at level 100, right associativity) : build_scope.
Delimit Scope build_scope with build.
Local Open Scope build_scope.

(** what [startDev] resolves to *)
Record dev_result := {
  dev_error : option (string * string);
  dev_success : bool;
}.

(** The collaborators: constants and helpers of other modules, Node's
    [fs] and [path], [@netlify/build] and the framework server. *)
Record surroundings := {
  INTERNAL_FUNCTIONS_FOLDER : string;
  INTERNAL_EDGE_FUNCTIONS_FOLDER : string;
  getPathInProject : list string -> string;
  resolve : string -> string -> string;
  (** the message of the error with which deleting a path fails, if it does *)
  rm_error : string -> option string;
  (** whether copying succeeds *)
  copies : jsval -> string -> bool;
  (** the [success] field of what the build resolves to *)
  buildSite : obj -> jsval;
  (** [startDev] of [@netlify/build], given the callback and the options *)
  startDev : (jsval -> B unit) -> obj -> B dev_result;
  (** the [ipVersion] the framework server reports, or the error it throws *)
  startFrameworkServer : obj -> js_error + jsval;
}.

Definition newline : string := String (Ascii.ascii_of_nat 10) EmptyString.

(** [v.k]: reading a property of [undefined] or [null] throws. *)
Definition member (v : jsval) (k : string) : outcome jsval :=
  match v with
  | JObj o => Ok (prop o k)
  | JUndefined | JNull =>
      Throw (TypeError [Plain ("Cannot read properties of undefined (reading '"
                               +:+ k +:+ "')")])
  | _ => Ok JUndefined
  end.

Definition lift {A} (r : outcome A) : B A :=
  match r with
  | Ok a => ret a
  | Throw e => throw e
  end.

Definition getBuildOptions (cachedConfig options : obj) (projectDir : string) : outcome obj :=
  match member (prop cachedConfig "siteInfo") "id" with
  | Throw e => Throw e
  | Ok siteId =>
      Ok (<["cachedConfig" := JObj cachedConfig]>
         (<["configPath" := prop options "configPath"]>
         (<["siteId" := siteId]>
         (<["token" := prop cachedConfig "token"]>
         (<["dry" := prop options "dry"]>
         (<["debug" := prop options "debug"]>
         (<["context" := prop options "context"]>
         (<["mode" := JStr "cli"]>
         (<["telemetry" := JBool false]>
         (<["buffer" := JBool false]>
         (<["offline" := prop options "offline"]>
         (<["cwd" := JStr projectDir]>
         (<["quiet" := prop options "quiet"]>
         (<["saveConfig" := prop options "saveConfig"]> ∅))))))))))))))
  end.

Section Timelines.

Variable S : surroundings.

(** [error] of [command-helpers.mjs] reports the message; the code that
    follows a call is modelled as written. *)
Definition error (message : string) : B unit := emit (ReportError message).

(** Copies [netlify.toml], if one is defined, into the [.netlify] internal
    directory and returns the path to its new location. *)
Definition copyConfig (configPath : jsval) (siteRoot : string) : B string :=
  let newConfigPath := resolve S siteRoot (getPathInProject S ["netlify.toml"]) in
  catch
    (emit (CopyFile configPath newConfigPath (copies S configPath newConfigPath)) ;;
     if copies S configPath newConfigPath then ret tt
     else throw (Error [Plain "copyFile failed"]))
    (* no-op *)
    (ret tt) ;;
  ret newConfigPath.

(** The three deletions are started one after the other and awaited
    together; when several fail, the model reports the first in this
    order. *)
Definition cleanInternalDirectory (basePath : string) : B unit :=
  let fullPaths :=
    List.map (fun name => resolve S basePath (getPathInProject S [name]))
      [INTERNAL_FUNCTIONS_FOLDER S; INTERNAL_EDGE_FUNCTIONS_FOLDER S; "netlify.toml"] in
  fold_right (fun fullPath rest => emit (Rm fullPath) ;; rest) (ret tt) fullPaths ;;
  match omap (rm_error S) fullPaths with
  | [] => ret tt
  | message :: _ => throw (Error [Plain message])
  end.

(** The callback handed to the build: starts the framework server on the
    settings with the overrides applied, then records on the shared
    settings object which loopback address the server bound to. *)
Definition devCommand (settingsOverrides : jsval) : B unit :=
  let settingsOverrides := or_if_undefined settingsOverrides (JObj ∅) in
  shared <- read_settings ;;
  let merged := spread settingsOverrides shared in
  emit (StartFrameworkServer merged) ;;
  match startFrameworkServer S merged with
  | inl e => throw e
  | inr ipVersion =>
      write_settings "frameworkHost"
        (if strict_eq ipVersion (JNum 6) then JStr "::1" else JStr "127.0.0.1")
  end.

Inductive timeline := build | dev.

Definition runNetlifyBuild (cachedConfig options : obj) (env : jsval)
    (projectDir siteRoot : string) (t : timeline) : B obj :=
  sharedOptions <- lift (getBuildOptions cachedConfig options projectDir) ;;
  match t with
  | build =>
      (* Start by cleaning the internal directory, as it may have artifacts
         left by previous builds. *)
      cleanInternalDirectory siteRoot ;;
      (* Copy netlify.toml into the internal directory. *)
      tempConfigPath <- copyConfig (prop cachedConfig "configPath") siteRoot ;;
      let buildSiteOptions :=
        <["saveConfig" := JBool true]>
        (<["outputConfigPath" := JStr tempConfigPath]> sharedOptions) in
      (* Run Netlify Build using the main entry point. *)
      emit (BuildSite buildSiteOptions) ;;
      if negb (truthy (buildSite S buildSiteOptions)) then
        error "Could not start local server due to a build error" ;;
        ret ∅
      else
        (* Start the dev server, forcing the usage of a static server as
           opposed to the framework server. *)
        devCommand (JObj (<["command" := JUndefined]>
                         (<["useStaticServer" := JBool true]> ∅))) ;;
        ret {["configPath" := JStr tempConfigPath]}
  | dev =>
      let startDevOptions :=
        <["env" := env]>
        (* suppress non-essential output unless the debug flag is set *)
        (<["quiet" := JBool (negb (truthy (prop options "debug")))]> sharedOptions) in
      (* Run Netlify Build using the startDev entry point. *)
      emit (StartDev startDevOptions) ;;
      result <- startDev S devCommand startDevOptions ;;
      match dev_success result, dev_error result with
      | false, Some (message, stack) =>
          error ("Could not start local development server" +:+ newline +:+ newline
                 +:+ message +:+ newline +:+ newline +:+ stack) ;;
          ret ∅
      | _, _ => ret ∅
      end
  end.

Definition runDevTimeline (cachedConfig options : obj) (env : jsval)
    (projectDir siteRoot : string) : B obj :=
  runNetlifyBuild cachedConfig options env projectDir siteRoot dev.

Definition runBuildTimeline (cachedConfig options : obj) (env : jsval)
    (projectDir siteRoot : string) : B obj :=
  runNetlifyBuild cachedConfig options env projectDir siteRoot build.

End Timelines.

End Build.
(** ** Definitions used by the statements *)

(** [add_opt k v o]: the object literal fragment [...(c && { k: v })]. *)
Definition add_opt (k : string) (v : option jsval) (o : obj) : obj :=
  match v with
  | Some x => <[k := x]> o
  | None => o
  end.

(** The object [finishSettings] returns: the branch's settings with four
    keys added, and [functionsPort] and [https] when they apply. *)
Definition finished (devConfig settings : obj) (port : Z)
    (functionsPort https : option jsval) : obj :=
  add_opt "https" https
    (add_opt "functionsPort" functionsPort
       (<["functions" := js_or (prop devConfig "functions") (prop settings "functions")]>
        (<["jwtRolePath" := js_or (prop devConfig "jwtRolePath")
                                  (JStr "app_metadata.authorization.roles")]>
        (<["jwtSecret" := js_or (prop devConfig "jwtSecret") (JStr "secret")]>
        (<["port" := JNum port]> settings))))).

(** The port the static-server pool hands out once the operating system
    has already made [n] choices of its own: the configured
    [staticServerPort] when there is one (it must be free), else
    [DEFAULT_STATIC_PORT] when free, else the system's next choice. *)
Definition static_pool (W : world) (devConfig : obj) (n : nat) (p : Z) : Prop :=
  if truthy (prop devConfig "staticServerPort")
  then prop devConfig "staticServerPort" = JNum p /\ occupied W p = false
  else p = if occupied W DEFAULT_STATIC_PORT then ephemeral W n else DEFAULT_STATIC_PORT.

(** The settings a run returned ([∅] when it threw). *)
Definition settings_of (r : outcome obj * state) : obj :=
  match fst r with
  | Ok s => s
  | Throw _ => ∅
  end.

Definition thrown {A} (r : outcome A * state) : option js_error :=
  match fst r with
  | Ok _ => None
  | Throw e => Some e
  end.

(** *** Concrete surroundings for the examples *)

Definition blank_settings (f : BuildInfo.Framework) : BuildInfo.Settings :=
  {| BuildInfo.devCommand := JUndefined;
     BuildInfo.dist := JUndefined;
     BuildInfo.env := JUndefined;
     BuildInfo.framework := f;
     BuildInfo.frameworkPort := JUndefined;
     BuildInfo.plugins_from_config_file := None;
     BuildInfo.plugins_recommended := None;
     BuildInfo.pollingStrategies := JUndefined;
     BuildInfo.packagePath := None |}.

(** A project in which the detector finds nothing. *)
Definition empty_project : BuildInfo.Project :=
  {| BuildInfo.workspace := None;
     BuildInfo.jsWorkspaceRoot := "/site";
     BuildInfo.getBuildSettings := [] |}.

(** A machine on which the ports in [taken] are bound by other processes,
    no file can be read and no framework id is known. *)
Definition machine (taken : list Z) : world :=
  {| NETLIFYDEVWARN := "Warning:";
     EOL := String (Ascii.ascii_of_nat 10) EmptyString;
     cwd := "/site";
     path_join := fun a b => a +:+ "/" +:+ b;
     path_resolve := fun p => "/site/" +:+ p;
     path_dirname := fun _ => "/";
     path_relative := fun _ to => to;
     occupied := fun p => existsb (Z.eqb p) taken;
     ephemeral := fun n => 49152 + Z.of_nat n;
     readFile := fun p => inr ("ENOENT: no such file or directory, open '" +:+ p +:+ "'");
     prompt := fun l =>
       List.hd (blank_settings {| BuildInfo.id := "none"; BuildInfo.name := "none" |}) l;
     getFramework := fun _ => inr "Invalid framework";
     getSettings := blank_settings;
     internalFunctionsDir := fun _ => JNull |}.

Definition static_config : obj := {["framework" := JStr "#static"]}.

(** *** Properties of computations *)

(** The port events of a trace, in order. *)
Definition port_events (t : list event) : list event := List.filter is_port_event t.

(** A computation that touches no port: it may log and read, but the
    count of system-chosen ports and the port events stay as they were,
    whether it returns or throws. *)
Definition quiet {A} (c : M A) : Prop :=
  forall st, probes (snd (c st)) = probes st
             /\ port_events (trace (snd (c st))) = port_events (trace st).

(** A computation that only appends to the trace and never reads it: what
    it returns is determined by the count of system-chosen ports. *)
Definition regular {A} (c : M A) : Prop :=
  forall n t,
    let r := c {| probes := n; trace := [] |} in
    c {| probes := n; trace := t |}
    = (fst r, {| probes := probes (snd r); trace := (t ++ trace (snd r))%list |}).

Definition map_outcome {A B} (f : A -> B) (r : outcome A) : outcome B :=
  match r with
  | Ok a => Ok (f a)
  | Throw e => Throw e
  end.

(** What [validateFrameworkConfig] checks, as a boolean: [command] unset
    or a string, [port] and [targetPort] unset or numbers, and [targetPort]
    not the same value as [port]. *)
Definition frameworkConfig_valid (devConfig : obj) : bool :=
  (negb (truthy (prop devConfig "command")) || is_string (prop devConfig "command"))
  && (negb (truthy (prop devConfig "port")) || is_number (prop devConfig "port"))
  && (negb (truthy (prop devConfig "targetPort")) || is_number (prop devConfig "targetPort"))
  && negb (truthy (prop devConfig "targetPort")
           && strict_eq (prop devConfig "targetPort") (prop devConfig "port")).

(** [framework = '#auto'] with both [command] and [targetPort] given. *)
Definition full_auto_config : obj :=
  <["framework" := JStr "#auto"]>
  (<["command" := JStr "npm start"]>
  (<["targetPort" := JNum 3000]> ∅)).

(** [port] and [targetPort] set to the same number, static serving forced. *)
Definition conflicting_static_config : obj :=
  <["framework" := JStr "#static"]>
  (<["port" := JNum 3000]>
  (<["targetPort" := JNum 3000]> ∅)).

(** The same conflict under [framework = '#custom'], with and without a
    [command]. *)
Definition conflicting_custom_config : obj :=
  <["framework" := JStr "#custom"]>
  (<["command" := JStr "npm start"]>
  (<["port" := JNum 3000]>
  (<["targetPort" := JNum 3000]> ∅))).

Definition conflicting_custom_config_without_command : obj :=
  <["framework" := JStr "#custom"]>
  (<["port" := JNum 3000]>
  (<["targetPort" := JNum 3000]> ∅)).

Definition custom_config_without_targetPort : obj :=
  <["framework" := JStr "#custom"]>
  (<["command" := JStr "npm start"]> ∅).

Definition https_options : jsval :=
  JObj (<["keyFile" := JStr "key.pem"]> (<["certFile" := JStr "cert.pem"]> ∅)).

(** A detected setting with a dev command and no port. *)
Definition command_only : BuildInfo.Settings :=
  {| BuildInfo.devCommand := JStr "npm run dev";
     BuildInfo.dist := JStr "public";
     BuildInfo.env := JUndefined;
     BuildInfo.framework := {| BuildInfo.id := "hugo"; BuildInfo.name := "Hugo" |};
     BuildInfo.frameworkPort := JUndefined;
     BuildInfo.plugins_from_config_file := None;
     BuildInfo.plugins_recommended := None;
     BuildInfo.pollingStrategies := JUndefined;
     BuildInfo.packagePath := None |}.

Definition auto_config : obj := {["framework" := JStr "#auto"]}.


(** The static-server path on its own, in the spec's words: "resolve as
    a static server", then the steps that follow every branch. *)
Definition staticServerResolution (W : world) (devConfig options : obj)
    (projectDir : string) : M obj :=
  (settings <- handleStaticServer W devConfig options projectDir ;;
   finishSettings W devConfig projectDir settings)%js.


(** *** Further configurations for the examples *)

Definition dir_options : obj := {["dir" := JStr "dist"]}.

(** A '#custom' configuration that is complete, with its own proxy port. *)
Definition complete_custom_config : obj :=
  <["framework" := JStr "#custom"]>
  (<["command" := JStr "npm start"]>
  (<["targetPort" := JNum 3000]>
  (<["port" := JNum 9000]> ∅))).

(** *** Events a computation leaves out *)

(** [avoids P c]: [c] adds no event satisfying [P] to the trace, whether
    it returns or throws. *)
Definition avoids {A} (P : event -> bool) (c : M A) : Prop :=
  forall st, List.filter P (trace (snd (c st))) = List.filter P (trace st).

(** Looking at the project: asking for its build settings, or asking the
    user to pick among them. *)
Definition is_detection_event (e : event) : bool :=
  match e with
  | EvBuildSettings | EvPrompt _ => true
  | _ => false
  end.

Definition is_prompt_event (e : event) : bool :=
  match e with
  | EvPrompt _ => true
  | _ => false
  end.


(** A project in which two settings have a dev command. *)
Definition two_candidates : BuildInfo.Project :=
  {| BuildInfo.workspace := None;
     BuildInfo.jsWorkspaceRoot := "/site";
     BuildInfo.getBuildSettings := [command_only; command_only] |}.

(** A project with one setting that has a dev command and one that has
    none. *)
Definition one_candidate : BuildInfo.Project :=
  {| BuildInfo.workspace := None;
     BuildInfo.jsWorkspaceRoot := "/site";
     BuildInfo.getBuildSettings :=
       [blank_settings {| BuildInfo.id := "none"; BuildInfo.name := "none" |};
        command_only] |}.

(** A machine on which the two certificate files can be read. *)
Definition machine_with_certificate : world :=
  {| NETLIFYDEVWARN := "Warning:";
     EOL := String (Ascii.ascii_of_nat 10) EmptyString;
     cwd := "/site";
     path_join := fun a b => a +:+ "/" +:+ b;
     path_resolve := fun p => "/site/" +:+ p;
     path_dirname := fun _ => "/";
     path_relative := fun _ to => to;
     occupied := fun _ => false;
     ephemeral := fun n => 49152 + Z.of_nat n;
     readFile := fun p =>
       if String.eqb p "key.pem" then inl "PRIVATE KEY"
       else if String.eqb p "cert.pem" then inl "CERTIFICATE"
       else inr ("ENOENT: no such file or directory, open '" +:+ p +:+ "'");
     prompt := fun l =>
       List.hd (blank_settings {| BuildInfo.id := "none"; BuildInfo.name := "none" |}) l;
     getFramework := fun _ => inr "Invalid framework";
     getSettings := blank_settings;
     internalFunctionsDir := fun _ => JNull |}.

(** The object [readHttpsSettings] resolves to. *)
Definition https_settings (W : world) (keyFile certFile key cert : string) : jsval :=
  JObj (<["key" := JStr key]>
       (<["cert" := JStr cert]>
       (<["keyFilePath" := JStr (path_resolve W keyFile)]>
       (<["certFilePath" := JStr (path_resolve W certFile)]> ∅)))).

(** What reading [https_options] on a machine without the files ends in. *)
Definition missing_key_error : js_error :=
  Error [Plain ("Error reading private key file: "
                +:+ "ENOENT: no such file or directory, open 'key.pem'")].

Definition both_read : state :=
  {| probes := 0; trace := [EvReadFile "key.pem"; EvReadFile "cert.pem"] |}.

(** A detected setting that recommends plugins. *)
Definition next_settings : BuildInfo.Settings :=
  {| BuildInfo.devCommand := JStr "next dev";
     BuildInfo.dist := JStr ".next";
     BuildInfo.env := JUndefined;
     BuildInfo.framework := {| BuildInfo.id := "next"; BuildInfo.name := "Next.js" |};
     BuildInfo.frameworkPort := JNum 3000;
     BuildInfo.plugins_from_config_file := Some ["@netlify/plugin-nextjs"; "cache"];
     BuildInfo.plugins_recommended := Some ["@netlify/plugin-nextjs"; "cache"; "lighthouse"];
     BuildInfo.pollingStrategies := JArr [JStr "TCP"];
     BuildInfo.packagePath := None |}.

Definition next_project : BuildInfo.Project :=
  {| BuildInfo.workspace := None;
     BuildInfo.jsWorkspaceRoot := "/site";
     BuildInfo.getBuildSettings := [next_settings] |}.

(** A machine that knows the framework id 'next'. *)
Definition machine_with_next : world :=
  {| NETLIFYDEVWARN := "Warning:";
     EOL := String (Ascii.ascii_of_nat 10) EmptyString;
     cwd := "/site";
     path_join := fun a b => a +:+ "/" +:+ b;
     path_resolve := fun p => "/site/" +:+ p;
     path_dirname := fun _ => "/";
     path_relative := fun _ to => to;
     occupied := fun _ => false;
     ephemeral := fun n => 49152 + Z.of_nat n;
     readFile := fun p => inr ("ENOENT: no such file or directory, open '" +:+ p +:+ "'");
     prompt := fun l => List.hd next_settings l;
     getFramework := fun id =>
       if strict_eq id (JStr "next")
       then inl {| BuildInfo.id := "next"; BuildInfo.name := "Next.js" |}
       else inr "Invalid framework";
     getSettings := fun _ => next_settings;
     internalFunctionsDir := fun _ => JNull |}.

Definition next_config : obj := {["framework" := JStr "next"]}.

(** A plugin as a configuration file declares it. *)
Definition declared_plugin (name : string) : jsval :=
  JObj (<["package" := JStr name]> (<["inputs" := JObj ∅]> ∅)).

(** The package names of a list of plugin entries, as strings. *)
Definition package_names (plugins : list jsval) : list string :=
  omap (fun plugin =>
          match plugin with
          | JObj o => match prop o "package" with JStr name => Some name | _ => None end
          | _ => None
          end) plugins.

Definition config_with_cache : obj :=
  {["plugins" := JArr [declared_plugin "cache"]]}.

Definition settings_with_plugins : obj :=
  {["plugins" := JArr [JStr "@netlify/plugin-nextjs"; JStr "cache"]]}.

(** [returns Q c]: from every state, [c] returns a value satisfying [Q]. *)
Definition returns {A} (Q : A -> Prop) (c : M A) : Prop :=
  forall st, exists a st', c st = (Ok a, st') /\ Q a.

(** Static serving of a [publish] directory, ports left to their defaults. *)
Definition publish_config : obj :=
  <["framework" := JStr "#static"]> (<["publish" := JStr "public"]> ∅).

Definition misspelt_framework_config : obj := {["framework" := JStr "gatsbyy"]}.

(** The keys a branch of the resolution can set, and those the last step
    adds. *)
Definition branch_keys : list string :=
  ["command"; "useStaticServer"; "frameworkPort"; "dist"; "framework"; "env";
   "pollingStrategies"; "plugins"].

Definition server_settings_keys : list string :=
  (branch_keys ++ ["port"; "jwtSecret"; "jwtRolePath"; "functions"; "functionsPort"; "https"])%list.

(** A '#custom' configuration with a functions directory and a
    certificate. *)
Definition secure_config : obj :=
  <["https" := https_options]>
  (<["functions" := JStr "netlify/functions"]> complete_custom_config).

(** *** The build timeline, spelt out *)

Module BuildFacts.

(** The options the build is run with. *)
Definition buildSiteOptions (S : Build.surroundings) (sharedOptions : obj)
    (siteRoot : string) : obj :=
  <["saveConfig" := JBool true]>
  (<["outputConfigPath" :=
       JStr (Build.resolve S siteRoot (Build.getPathInProject S ["netlify.toml"]))]>
     sharedOptions).

(** What a build run does before the build itself: three deletions, then
    the copy of the configuration file. *)
Definition preparation (S : Build.surroundings) (configPath : jsval)
    (siteRoot : string) : list Build.event :=
  let internal name := Build.resolve S siteRoot (Build.getPathInProject S [name]) in
  [Build.Rm (internal (Build.INTERNAL_FUNCTIONS_FOLDER S));
   Build.Rm (internal (Build.INTERNAL_EDGE_FUNCTIONS_FOLDER S));
   Build.Rm (internal "netlify.toml");
   Build.CopyFile configPath (internal "netlify.toml")
     (Build.copies S configPath (internal "netlify.toml"))].

(** The settings the framework server is started with after a build. *)
Definition static_settings (settings : obj) : obj :=
  <["command" := JUndefined]> (<["useStaticServer" := JBool true]> ∅) ∪ settings.

Definition loopback (ipVersion : jsval) : jsval :=
  if strict_eq ipVersion (JNum 6) then JStr "::1" else JStr "127.0.0.1".

(** Collaborators for the examples: nothing fails to be deleted, there is
    no configuration file to copy, the build succeeds when [succeeds], and
    the framework server binds to IPv6. *)
Definition example_surroundings (succeeds : bool) : Build.surroundings :=
  {| Build.INTERNAL_FUNCTIONS_FOLDER := "functions-internal";
     Build.INTERNAL_EDGE_FUNCTIONS_FOLDER := "edge-functions";
     Build.getPathInProject := fun paths => String.concat "/" (".netlify" :: paths);
     Build.resolve := fun base p => base +:+ "/" +:+ p;
     Build.rm_error := fun _ => None;
     Build.copies := fun _ _ => false;
     Build.buildSite := fun _ => JBool succeeds;
     Build.startDev := fun _ _ =>
       Build.ret {| Build.dev_error := None; Build.dev_success := true |};
     Build.startFrameworkServer := fun _ => inr (JNum 6) |}.

Definition example_cachedConfig : obj :=
  <["siteInfo" := JObj {["id" := JStr "site-id"]}]> ∅.

Definition framework_settings : obj :=
  <["command" := JStr "npm start"]>
  (<["useStaticServer" := JBool false]>
  (<["frameworkPort" := JNum 3000]> ∅)).

Definition before_build : Build.state :=
  {| Build.settings := framework_settings; Build.trace := [] |}.

End BuildFacts.
(** ** Reasoning about runs *)

Lemma bind_Ok_inv {A B} (c : M A) (k : A -> M B) st b st' :
  bind c k st = (Ok b, st') ->
  exists a st1, c st = (Ok a, st1) /\ k a st1 = (Ok b, st').
Proof.
  unfold bind. destruct (c st) as [[a|e] st1]; intros H.
  - exists a, st1. split; [reflexivity | exact H].
  - discriminate H.
Qed.

Lemma bind_Ok {A B} (c : M A) (k : A -> M B) st a st1 :
  c st = (Ok a, st1) -> bind c k st = k a st1.
Proof. unfold bind. intros ->. reflexivity. Qed.

Lemma bind_Throw {A B} (c : M A) (k : A -> M B) st e st1 :
  c st = (Throw e, st1) -> bind c k st = (Throw e, st1).
Proof. unfold bind. intros ->. reflexivity. Qed.


Lemma lookup_add_opt_ne k k' v (o : obj) :
  k <> k' -> add_opt k v o !! k' = o !! k'.
Proof. destruct v; simpl; intros Hne; [apply lookup_insert_ne; exact Hne | reflexivity]. Qed.


Tactic Notation "inv_bind" hyp(H) "as" ident(a) ident(st) ident(Hc) :=
  apply bind_Ok_inv in H as (a & st & Hc & H).

Lemma finishSettings_Ok_inv W devConfig projectDir settings st s st' :
  finishSettings W devConfig projectDir settings st = (Ok s, st') ->
  exists port functionsPort https,
    s = finished devConfig settings port functionsPort https
    /\ if truthy (js_or (js_or (prop devConfig "functions") (prop settings "functions"))
                        (internalFunctionsDir W projectDir))
       then exists q st1 st2,
              getPort W (js_or (prop devConfig "functionsPort") (JNum 0)) st1 = (Ok q, st2)
              /\ functionsPort = Some (JNum q)
       else functionsPort = None.
Proof.
  unfold finishSettings. intros H.
  inv_bind H as u0 st0 Hc0.
  inv_bind H as port st1 Hc1.
  inv_bind H as internal st2 Hc2.
  unfold getInternalFunctionsDir, bind, emit, ret in Hc2. injection Hc2 as <- <-.
  inv_bind H as result st3 Hresult.
  exists port.
  destruct (truthy (js_or _ (internalFunctionsDir W projectDir))).
  - inv_bind Hresult as fp st4 Hfp.
    injection Hresult as <- <-.
    destruct (truthy (prop devConfig "https")).
    + inv_bind H as https st5 Hh. injection H as <- <-.
      exists (Some (JNum fp)), (Some https). split; [reflexivity|].
      eexists _, _, _. split; [exact Hfp | reflexivity].
    + injection H as <- <-. exists (Some (JNum fp)), None. split; [reflexivity|].
      eexists _, _, _. split; [exact Hfp | reflexivity].
  - injection Hresult as <- <-.
    destruct (truthy (prop devConfig "https")).
    + inv_bind H as https st5 Hh. injection H as <- <-.
      exists None, (Some https). split; reflexivity.
    + injection H as <- <-. exists None, None. split; reflexivity.
Qed.

Lemma detectServerSettings_Ok_inv W devConfig options project projectDir st s st' :
  detectServerSettings W devConfig options project projectDir st = (Ok s, st') ->
  exists settings st1 st2,
    validateStringProperty devConfig "framework" st = (Ok tt, st1) /\
    branchSettings W devConfig options project projectDir st1 = (Ok settings, st2) /\
    finishSettings W devConfig projectDir settings st2 = (Ok s, st').
Proof.
  unfold detectServerSettings. intros H.
  apply bind_Ok_inv in H as ([] & st1 & Hv & H).
  apply bind_Ok_inv in H as (settings & st2 & Hb & H).
  exists settings, st1, st2. auto.
Qed.

Lemma finished_lookup_other devConfig settings port functionsPort https k :
  k <> "https" -> k <> "functionsPort" -> k <> "functions" ->
  k <> "jwtRolePath" -> k <> "jwtSecret" -> k <> "port" ->
  finished devConfig settings port functionsPort https !! k = settings !! k.
Proof.
  intros. unfold finished.
  rewrite !lookup_add_opt_ne by congruence.
  rewrite !lookup_insert_ne by congruence. reflexivity.
Qed.

Lemma jwt_defaults_falsy W devConfig options project projectDir st s st' :
  detectServerSettings W devConfig options project projectDir st = (Ok s, st') ->
  (truthy (prop devConfig "jwtSecret") = false ->
   s !! "jwtSecret" = Some (JStr "secret")) /\
  (truthy (prop devConfig "jwtRolePath") = false ->
   s !! "jwtRolePath" = Some (JStr "app_metadata.authorization.roles")).
Proof.
  intros H.
  apply detectServerSettings_Ok_inv in H as (settings & st1 & st2 & _ & _ & H).
  apply finishSettings_Ok_inv in H as (port & fp & https & -> & _).
  unfold finished. split; intros Hf.
  - rewrite !lookup_add_opt_ne by discriminate.
    rewrite !lookup_insert_ne by discriminate.
    rewrite lookup_insert_eq. unfold js_or. rewrite Hf. reflexivity.
  - rewrite !lookup_add_opt_ne by discriminate.
    rewrite !lookup_insert_ne by discriminate.
    rewrite lookup_insert_eq. unfold js_or. rewrite Hf. reflexivity.
Qed.

Lemma prop_unset (o : obj) k : o !! k = None -> prop o k = JUndefined.
Proof. unfold prop. intros ->. reflexivity. Qed.

(** C10: every successful resolution carries the JWT defaults: when
    [devConfig.jwtSecret] is unset the returned [jwtSecret] is the string
    'secret', and when [devConfig.jwtRolePath] is unset the returned
    [jwtRolePath] is 'app_metadata.authorization.roles'. *)
Theorem jwt_defaults W devConfig options project projectDir st s st' :
  detectServerSettings W devConfig options project projectDir st = (Ok s, st') ->
  (devConfig !! "jwtSecret" = None -> s !! "jwtSecret" = Some (JStr "secret")) /\
  (devConfig !! "jwtRolePath" = None ->
   s !! "jwtRolePath" = Some (JStr "app_metadata.authorization.roles")).
Proof.
  intros H. apply jwt_defaults_falsy in H as [Hs Hr].
  split; intros Hu; [apply Hs | apply Hr]; rewrite (prop_unset _ _ Hu); reflexivity.
Qed.

Lemma jwt_defaults_witness :
  let run := detectServerSettings (machine []) static_config ∅ empty_project "/site" initial in
  run = (Ok (settings_of run), snd run) /\
  settings_of run !! "jwtSecret" = Some (JStr "secret") /\
  settings_of run !! "jwtRolePath" = Some (JStr "app_metadata.authorization.roles").
Proof.
  intros run.
  assert (Hrun : run = (Ok (settings_of run), snd run)) by (vm_compute; reflexivity).
  split; [exact Hrun|].
  destruct (jwt_defaults _ _ _ _ _ _ _ _ Hrun) as [Hs Hr].
  split; [apply Hs | apply Hr]; reflexivity.
Defined.

(** *** Quiet computations *)

Lemma quiet_ret {A} (a : A) : quiet (ret a).
Proof. intros st. split; reflexivity. Qed.

Lemma quiet_throw {A} e : quiet (@throw A e).
Proof. intros st. split; reflexivity. Qed.

Lemma quiet_bind {A B} (c : M A) (k : A -> M B) :
  quiet c -> (forall a, quiet (k a)) -> quiet (bind c k).
Proof.
  intros Hc Hk st. unfold bind. specialize (Hc st).
  destruct (c st) as [[a|e] st1]; simpl in *.
  - destruct Hc as [Hp1 Ht1]. destruct (Hk a st1) as [Hp Ht].
    split; [rewrite Hp; exact Hp1 | rewrite Ht; exact Ht1].
  - exact Hc.
Qed.

Lemma quiet_emit e : is_port_event e = false -> quiet (emit e).
Proof.
  intros He st. split; [reflexivity|]. simpl. unfold port_events.
  rewrite List.filter_app. simpl. rewrite He. apply app_nil_r.
Qed.

Lemma quiet_log line : quiet (log line).
Proof. apply quiet_emit. reflexivity. Qed.

Ltac quiet_step :=
  first
    [ apply quiet_ret | apply quiet_throw | apply quiet_log
    | apply quiet_emit; reflexivity
    | apply quiet_bind; [| intros ? ]
    | match goal with
      | |- quiet (if ?b then _ else _) => destruct b
      | |- quiet (match ?x with _ => _ end) => destruct x
      | |- quiet (when ?b _) => unfold when
      end ].

Ltac quiet := repeat quiet_step.

Lemma quiet_validateStringProperty devConfig property :
  quiet (validateStringProperty devConfig property).
Proof. unfold validateStringProperty. quiet. Qed.

Lemma quiet_validateNumberProperty devConfig property :
  quiet (validateNumberProperty devConfig property).
Proof. unfold validateNumberProperty. quiet. Qed.

Lemma quiet_validateFrameworkConfig devConfig :
  quiet (validateFrameworkConfig devConfig).
Proof.
  unfold validateFrameworkConfig.
  apply quiet_bind; [apply quiet_validateStringProperty | intros _].
  apply quiet_bind; [apply quiet_validateNumberProperty | intros _].
  apply quiet_bind; [apply quiet_validateNumberProperty | intros _].
  quiet.
Qed.

Lemma quiet_getDefaultDist W : quiet (getDefaultDist W).
Proof. unfold getDefaultDist. quiet. Qed.

Lemma quiet_or_default_dist W a b : quiet (or_default_dist W a b).
Proof.
  unfold or_default_dist. destruct (truthy a); [quiet|].
  destruct (truthy b); [quiet|].
  apply quiet_bind; [apply quiet_getDefaultDist | intros; quiet].
Qed.

Lemma quiet_relative_to_project W projectDir dist :
  quiet (relative_to_project W projectDir dist).
Proof. unfold relative_to_project. quiet. Qed.

Lemma quiet_detectFrameworkSettings W project :
  quiet (detectFrameworkSettings W project).
Proof.
  unfold detectFrameworkSettings.
  apply quiet_bind; [apply quiet_emit; reflexivity | intros _].
  destruct (detectable W project) as [|? [|? ?]]; quiet.
Qed.

Lemma quiet_Ok {A} (c : M A) st r st' :
  quiet c -> c st = (r, st') ->
  probes st' = probes st /\ port_events (trace st') = port_events (trace st).
Proof. intros Hq Hc. specialize (Hq st). rewrite Hc in Hq. exact Hq. Qed.

(** *** Port acquisition *)

Lemma getPort_number W p st :
  getPort W (JNum p) st
  = if (p =? 0) || occupied W p
    then (Ok (ephemeral W (probes st)),
          {| probes := S (probes st);
             trace := ((if p =? 0 then trace st
                        else trace st ++ [EvProbe p false])
                       ++ [EvAnyPort (ephemeral W (probes st))])%list |})
    else (Ok p, {| probes := probes st; trace := (trace st ++ [EvProbe p true])%list |}).
Proof.
  unfold getPort. destruct (p =? 0); simpl; [reflexivity|].
  unfold bind, probePort, anyPort, ret. destruct (occupied W p); reflexivity.
Qed.

Lemma getStaticServerPort_Ok_inv W devConfig st p st' :
  getStaticServerPort W devConfig st = (Ok p, st') ->
  static_pool W devConfig (probes st) p.
Proof.
  unfold getStaticServerPort, acquirePort, static_pool.
  destruct (truthy (prop devConfig "staticServerPort")).
  - destruct (prop devConfig "staticServerPort"); try discriminate.
    unfold bind, probePort. simpl. destruct (occupied W n) eqn:Hocc; simpl; [discriminate|].
    unfold ret. intros [= <- <-]. split; [reflexivity | exact Hocc].
  - rewrite getPort_number. change (DEFAULT_STATIC_PORT =? 0) with false. simpl.
    destruct (occupied W DEFAULT_STATIC_PORT); intros [= <- <-]; reflexivity.
Qed.

Lemma handleStaticServer_Ok_inv W devConfig options projectDir st settings st' :
  handleStaticServer W devConfig options projectDir st = (Ok settings, st') ->
  exists dist p,
    static_pool W devConfig (probes st) p /\
    settings = <["dist" := dist]>
               (<["frameworkPort" := JNum p]>
               (<["useStaticServer" := JBool true]>
               (spread (js_and (prop devConfig "command")
                               (JObj {["command" := prop devConfig "command"]})) ∅))).
Proof.
  unfold handleStaticServer. intros H.
  inv_bind H as u0 st0 Hc0.
  apply (quiet_Ok _ _ _ _ (quiet_validateNumberProperty _ _)) in Hc0 as [Hp0 _].
  inv_bind H as u1 st1 Hc1.
  assert (Hp1 : probes st1 = probes st0).
  { refine (proj1 (quiet_Ok _ _ _ _ _ Hc1)). quiet. }
  inv_bind H as u2 st2 Hc2.
  assert (Hp2 : probes st2 = probes st1).
  { refine (proj1 (quiet_Ok _ _ _ _ _ Hc2)). quiet. }
  inv_bind H as dist st3 Hc3.
  apply (quiet_Ok _ _ _ _ (quiet_or_default_dist _ _ _)) in Hc3 as [Hp3 _].
  inv_bind H as relative st4 Hc4.
  apply (quiet_Ok _ _ _ _ (quiet_relative_to_project _ _ _)) in Hc4 as [Hp4 _].
  inv_bind H as u5 st5 Hc5.
  apply (quiet_Ok _ _ _ _ (quiet_log _)) in Hc5 as [Hp5 _].
  inv_bind H as p st6 Hc6.
  apply getStaticServerPort_Ok_inv in Hc6.
  injection H as <- <-.
  exists dist, p. split; [|reflexivity].
  replace (probes st) with (probes st5) by congruence. exact Hc6.
Qed.

Lemma validateStringProperty_Ok devConfig property st st' :
  validateStringProperty devConfig property st = (Ok tt, st') -> st' = st.
Proof.
  unfold validateStringProperty. destruct (_ && _); [discriminate|].
  intros [= <-]. reflexivity.
Qed.

Lemma branchSettings_static W devConfig options project projectDir :
  truthy (prop options "dir") = true \/ prop devConfig "framework" = JStr "#static" ->
  branchSettings W devConfig options project projectDir
  = handleStaticServer W devConfig options projectDir.
Proof.
  unfold branchSettings. intros [-> | ->]; [reflexivity|].
  rewrite orb_true_r. reflexivity.
Qed.

(** C8: whenever the [--dir] flag is set or [devConfig.framework] is
    '#static', the resolved settings have [useStaticServer = true] and a
    [frameworkPort] acquired from the static-server pool: the configured
    [devConfig.staticServerPort] when there is one, else the default 3999
    (or, should 3999 be taken, the system's next free choice). *)
Theorem static_resolution_uses_static_pool W devConfig options project projectDir st s st' :
  truthy (prop options "dir") = true \/ prop devConfig "framework" = JStr "#static" ->
  detectServerSettings W devConfig options project projectDir st = (Ok s, st') ->
  s !! "useStaticServer" = Some (JBool true) /\
  DEFAULT_STATIC_PORT = 3999 /\
  exists p, s !! "frameworkPort" = Some (JNum p)
            /\ static_pool W devConfig (probes st) p.
Proof.
  intros Hstatic H.
  apply detectServerSettings_Ok_inv in H as (settings & st1 & st2 & Hv & Hb & H).
  apply validateStringProperty_Ok in Hv as ->.
  rewrite (branchSettings_static _ _ _ _ _ Hstatic) in Hb.
  apply handleStaticServer_Ok_inv in Hb as (dist & p & Hpool & ->).
  apply finishSettings_Ok_inv in H as (port & fp & https & -> & _).
  split; [|split; [reflexivity|exists p; split; [|exact Hpool]]].
  - rewrite finished_lookup_other by discriminate.
    rewrite !lookup_insert_ne by discriminate. apply lookup_insert_eq.
  - rewrite finished_lookup_other by discriminate.
    rewrite !lookup_insert_ne by discriminate. apply lookup_insert_eq.
Qed.

Lemma static_resolution_uses_static_pool_witness :
  let run := detectServerSettings (machine []) static_config ∅ empty_project "/site" initial in
  run = (Ok (settings_of run), snd run) /\
  settings_of run !! "useStaticServer" = Some (JBool true) /\
  settings_of run !! "frameworkPort" = Some (JNum 3999).
Proof.
  intros run.
  assert (Hrun : run = (Ok (settings_of run), snd run)) by (vm_compute; reflexivity).
  split; [exact Hrun|].
  destruct (static_resolution_uses_static_pool
              (machine []) static_config ∅ empty_project "/site" initial _ _
              (or_intror eq_refl) Hrun) as (Hs & _ & p & Hp & Hpool).
  split; [exact Hs|].
  rewrite Hp. unfold static_pool in Hpool. simpl in Hpool. rewrite Hpool. reflexivity.
Defined.

(** *** The '#auto' branch when detection is skipped *)

Lemma autoSettings_skipping_detection W devConfig options project projectDir :
  truthy (prop devConfig "command") = true ->
  truthy (prop devConfig "targetPort") = true ->
  autoSettings W devConfig options project projectDir
  = (settings <-
       (log [WARN W; Plain " No app server detected. Using simple static server"] ;;
        handleStaticServer W devConfig options projectDir) ;;
     ret (<["plugins" := JUndefined]> settings)).
Proof.
  intros Hc Ht. unfold autoSettings, hasCommandAndTargetPort, js_and.
  rewrite Hc, Ht. reflexivity.
Qed.

Lemma auto_skipping_detection_is_static W devConfig options project projectDir st s st' :
  prop devConfig "framework" = JStr "#auto" ->
  truthy (prop options "dir") = false ->
  truthy (prop devConfig "command") = true ->
  truthy (prop devConfig "targetPort") = true ->
  detectServerSettings W devConfig options project projectDir st = (Ok s, st') ->
  s !! "useStaticServer" = Some (JBool true) /\
  exists p, s !! "frameworkPort" = Some (JNum p) /\ static_pool W devConfig (probes st) p.
Proof.
  intros Hf Hd Hc Ht H.
  apply detectServerSettings_Ok_inv in H as (settings & st1 & st2 & Hv & Hb & H).
  apply validateStringProperty_Ok in Hv as ->.
  unfold branchSettings in Hb. rewrite Hd, Hf in Hb. simpl in Hb.
  rewrite autoSettings_skipping_detection in Hb by assumption.
  inv_bind Hb as settings0 st3 Hs. injection Hb as <- <-.
  inv_bind Hs as u st4 Hl.
  apply (quiet_Ok _ _ _ _ (quiet_log _)) in Hl as [Hp _].
  apply handleStaticServer_Ok_inv in Hs as (dist & p & Hpool & ->).
  apply finishSettings_Ok_inv in H as (port & fp & https & -> & _).
  rewrite Hp in Hpool.
  split; [|exists p; split; [|exact Hpool]].
  - rewrite finished_lookup_other by discriminate.
    rewrite !lookup_insert_ne by discriminate. apply lookup_insert_eq.
  - rewrite finished_lookup_other by discriminate.
    rewrite !lookup_insert_ne by discriminate. apply lookup_insert_eq.
Qed.

(** C1, at the configuration [framework = '#auto', command = 'npm start',
    targetPort = 3000] without [--dir]: detection is skipped (no
    [EvBuildSettings] in the trace), yet the run takes the static-server
    fallback: it returns [useStaticServer = true] and the static pool's
    port 3999 as [frameworkPort], not [targetPort]. *)
Theorem auto_with_command_and_targetPort_is_served_statically :
  let run :=
    detectServerSettings (machine []) full_auto_config ∅ empty_project "/site" initial in
  run = (Ok (settings_of run), snd run) /\
  settings_of run !! "command" = Some (JStr "npm start") /\
  settings_of run !! "useStaticServer" = Some (JBool true) /\
  settings_of run !! "frameworkPort" = Some (JNum 3999) /\
  prop full_auto_config "targetPort" = JNum 3000 /\
  existsb (fun e => match e with EvBuildSettings => true | _ => false end)
    (trace (snd run)) = false.
Proof. vm_compute. repeat split; reflexivity. Qed.

(** *** The port/targetPort conflict *)

Lemma validateFrameworkConfig_conflict devConfig n st :
  n <> 0 ->
  prop devConfig "port" = JNum n ->
  prop devConfig "targetPort" = JNum n ->
  truthy (prop devConfig "command") = false \/ is_string (prop devConfig "command") = true ->
  validateFrameworkConfig devConfig st = (Throw (Error port_conflict_message), st).
Proof.
  intros Hn Hp Ht Hc. unfold validateFrameworkConfig, validateStringProperty,
    validateNumberProperty.
  assert (Hcmd : truthy (prop devConfig "command")
                 && negb (is_string (prop devConfig "command")) = false).
  { destruct Hc as [-> | ->]; [reflexivity | apply andb_false_r]. }
  rewrite Hcmd, Hp, Ht. simpl.
  assert (Hz : (n =? 0) = false) by (apply Z.eqb_neq; exact Hn).
  rewrite Hz, Z.eqb_refl. reflexivity.
Qed.

Lemma validateFrameworkConfig_valid devConfig st :
  frameworkConfig_valid devConfig = true ->
  validateFrameworkConfig devConfig st = (Ok tt, st).
Proof.
  unfold frameworkConfig_valid. rewrite !andb_true_iff, !orb_true_iff, !negb_true_iff.
  intros [[[Hc Hp] Ht] He].
  unfold validateFrameworkConfig, validateStringProperty, validateNumberProperty.
  assert (H1 : truthy (prop devConfig "command")
               && negb (is_string (prop devConfig "command")) = false).
  { destruct Hc as [-> | ->]; [reflexivity | apply andb_false_r]. }
  assert (H2 : truthy (prop devConfig "port")
               && negb (is_number (prop devConfig "port")) = false).
  { destruct Hp as [-> | ->]; [reflexivity | apply andb_false_r]. }
  assert (H3 : truthy (prop devConfig "targetPort")
               && negb (is_number (prop devConfig "targetPort")) = false).
  { destruct Ht as [-> | ->]; [reflexivity | apply andb_false_r]. }
  rewrite H1, H2, H3. unfold bind, ret. rewrite He. reflexivity.
Qed.

Lemma validateStringProperty_string devConfig property s st :
  prop devConfig property = JStr s ->
  validateStringProperty devConfig property st = (Ok tt, st).
Proof.
  intros Hs. unfold validateStringProperty. rewrite Hs. simpl.
  rewrite andb_false_r. reflexivity.
Qed.

Lemma detectFrameworkSettings_some W project st :
  detectable W project <> [] ->
  exists detected st1,
    detectFrameworkSettings W project st = (Ok (Some detected), st1).
Proof.
  intros Hne. unfold detectFrameworkSettings.
  destruct (detectable W project) as [|only [|second rest]]; [congruence| |];
    eexists _, _; reflexivity.
Qed.

(** C2, as amended: when [port] and [targetPort] hold the same non-zero
    number and [command] is unset or a string, [detectServerSettings]
    fails with the port/targetPort conflict error, and no port has been
    probed or acquired by then, provided no [--dir] flag is given and the
    framework is '#custom', a named framework, or '#auto' with detection
    invoked and yielding a match.  (The reserved value '#static' and
    [--dir] lead to the static server, which ignores [targetPort].) *)
Theorem port_conflict_rejected_before_ports
    W devConfig options project projectDir st n id :
  n <> 0 ->
  prop devConfig "port" = JNum n ->
  prop devConfig "targetPort" = JNum n ->
  truthy (prop devConfig "command") = false \/ is_string (prop devConfig "command") = true ->
  truthy (prop options "dir") = false ->
  prop devConfig "framework" = JStr id ->
  id <> EmptyString -> id <> "#static" ->
  (id = "#auto" ->
   truthy (prop devConfig "command") = false /\ detectable W project <> []) ->
  exists st',
    detectServerSettings W devConfig options project projectDir st
    = (Throw (Error port_conflict_message), st')
    /\ probes st' = probes st
    /\ port_events (trace st') = port_events (trace st).
Proof.
  intros Hn Hp Ht Hc Hd Hf Hid Hstatic Hauto.
  pose proof (fun s => validateFrameworkConfig_conflict devConfig n s Hn Hp Ht Hc) as Hconflict.
  unfold detectServerSettings.
  rewrite (bind_Ok _ _ _ _ _ (validateStringProperty_string _ _ _ st Hf)).
  assert (Hbranch : exists st',
             branchSettings W devConfig options project projectDir st
             = (Throw (Error port_conflict_message), st')
             /\ probes st' = probes st
             /\ port_events (trace st') = port_events (trace st)).
  { unfold branchSettings. rewrite Hd, Hf. simpl.
    apply String.eqb_neq in Hstatic. rewrite Hstatic.
    destruct (String.eqb id "#auto") eqn:Ha.
    - apply String.eqb_eq in Ha. destruct (Hauto Ha) as [Hcmd Hdet].
      unfold autoSettings, hasCommandAndTargetPort, js_and. rewrite Hcmd, Hcmd.
      cbn [negb].
      destruct (detectFrameworkSettings_some W project st Hdet) as (detected & st1 & Hrun).
      destruct (quiet_Ok _ _ _ _ (quiet_detectFrameworkSettings W project) Hrun) as [Hp1 Ht1].
      exists st1. split; [|split; assumption].
      rewrite (bind_Ok _ _ _ _ _ Hrun).
      apply bind_Throw. apply bind_Throw. apply Hconflict.
    - exists st. split; [|split; reflexivity].
      destruct (String.eqb id "#custom").
      + apply bind_Throw. apply Hconflict.
      + apply String.eqb_neq in Hid. rewrite Hid. simpl.
        apply bind_Throw. apply Hconflict. }
  destruct Hbranch as (st' & Hb & Hprobes & Htrace).
  exists st'. split; [|split; assumption].
  apply bind_Throw. exact Hb.
Qed.

Lemma port_conflict_rejected_before_ports_witness :
  exists st',
    detectServerSettings (machine []) conflicting_custom_config ∅ empty_project "/site" initial
    = (Throw (Error port_conflict_message), st')
    /\ probes st' = probes initial
    /\ port_events (trace st') = port_events (trace initial).
Proof.
  apply (port_conflict_rejected_before_ports
           (machine []) conflicting_custom_config ∅ empty_project "/site" initial
           3000 "#custom").
  - lia.
  - reflexivity.
  - reflexivity.
  - right. reflexivity.
  - reflexivity.
  - reflexivity.
  - discriminate.
  - discriminate.
  - discriminate.
Defined.

(** C2 as stated fails on the static path: with [framework = '#static']
    and [port = targetPort = 3000] the resolution succeeds. *)
Lemma static_path_accepts_equal_port_and_targetPort :
  let run :=
    detectServerSettings (machine []) conflicting_static_config ∅ empty_project "/site" initial in
  prop conflicting_static_config "port" = JNum 3000 /\
  prop conflicting_static_config "targetPort" = JNum 3000 /\
  thrown run = None /\
  settings_of run !! "useStaticServer" = Some (JBool true).
Proof. vm_compute. repeat split; reflexivity. Qed.

(** *** The '#custom' framework *)

Lemma custom_framework_message_names_both :
  mentions "'command'" custom_framework_message = true /\
  mentions "'targetPort'" custom_framework_message = true.
Proof. split; vm_compute; reflexivity. Qed.

(** C5, as amended: for every devConfig with framework '#custom' (and no
    [--dir] flag) that passes the configuration checks made first
    ([command] unset or a string, [port] and [targetPort] unset or numbers,
    [targetPort] different from [port]) and is missing [command] or
    [targetPort] or both, [detectServerSettings] fails with a validation
    error whose message names both [command] and [targetPort]. *)
Theorem custom_framework_requires_command_and_targetPort
    W devConfig options project projectDir st :
  prop devConfig "framework" = JStr "#custom" ->
  truthy (prop options "dir") = false ->
  frameworkConfig_valid devConfig = true ->
  truthy (prop devConfig "command") = false \/ truthy (prop devConfig "targetPort") = false ->
  detectServerSettings W devConfig options project projectDir st
  = (Throw (Error custom_framework_message), st)
  /\ mentions "'command'" custom_framework_message = true
  /\ mentions "'targetPort'" custom_framework_message = true.
Proof.
  intros Hf Hd Hvalid Hmissing.
  split; [|exact custom_framework_message_names_both].
  unfold detectServerSettings.
  rewrite (bind_Ok _ _ _ _ _ (validateStringProperty_string _ _ _ st Hf)).
  apply bind_Throw.
  unfold branchSettings. rewrite Hd, Hf. simpl.
  rewrite (bind_Ok _ _ _ _ _ (validateFrameworkConfig_valid _ st Hvalid)).
  unfold handleCustomFramework, hasCommandAndTargetPort, js_and.
  destruct Hmissing as [Hc | Ht].
  - rewrite Hc. simpl. rewrite Hc. reflexivity.
  - destruct (truthy (prop devConfig "command")) eqn:Hc; simpl.
    + rewrite Ht. reflexivity.
    + rewrite Hc. reflexivity.
Qed.

Lemma custom_framework_requires_command_and_targetPort_witness :
  detectServerSettings (machine []) custom_config_without_targetPort ∅ empty_project
    "/site" initial
  = (Throw (Error custom_framework_message), initial)
  /\ mentions "'command'" custom_framework_message = true
  /\ mentions "'targetPort'" custom_framework_message = true.
Proof.
  apply (custom_framework_requires_command_and_targetPort
           (machine []) custom_config_without_targetPort ∅ empty_project "/site" initial).
  - reflexivity.
  - reflexivity.
  - reflexivity.
  - right. reflexivity.
Defined.

(** C5 as stated fails when another check fires first: with framework
    '#custom', no [command] and [port = targetPort = 3000], the error is
    the port conflict, whose message does not name [command]. *)
Lemma custom_without_command_may_report_port_conflict :
  let run :=
    detectServerSettings (machine []) conflicting_custom_config_without_command ∅
      empty_project "/site" initial in
  truthy (prop conflicting_custom_config_without_command "command") = false /\
  thrown run = Some (Error port_conflict_message) /\
  mentions "command" port_conflict_message = false.
Proof. vm_compute. repeat split; reflexivity. Qed.

(** *** Reading the certificate *)

(** C3, as amended: when both the key file and the certificate file are
    unreadable, [readHttpsSettings] reads both files before it reports, and
    the single error it fails with is the one about the private key file,
    carrying the key read's reason only. *)
Theorem readHttpsSettings_reports_the_key_failure
    W (o : obj) keyFile certFile keyError certError st :
  prop o "keyFile" = JStr keyFile -> keyFile <> EmptyString ->
  prop o "certFile" = JStr certFile -> certFile <> EmptyString ->
  readFile W keyFile = inr keyError ->
  readFile W certFile = inr certError ->
  readHttpsSettings W (JObj o) st
  = (Throw (Error [Plain ("Error reading private key file: " +:+ keyError)]),
     {| probes := probes st;
        trace := (trace st ++ [EvReadFile keyFile; EvReadFile certFile])%list |}).
Proof.
  intros Hk Hkne Hc Hcne Hkey Hcert. unfold readHttpsSettings.
  rewrite Hk, Hc. simpl.
  apply String.eqb_neq in Hkne, Hcne. rewrite Hkne, Hcne. simpl.
  unfold bind, emit. simpl. rewrite Hkey. unfold throw.
  rewrite <- app_assoc. reflexivity.
Qed.

Lemma readHttpsSettings_reports_the_key_failure_witness :
  readHttpsSettings (machine []) https_options initial
  = (Throw (Error [Plain ("Error reading private key file: "
                          +:+ "ENOENT: no such file or directory, open 'key.pem'")]),
     {| probes := 0; trace := [EvReadFile "key.pem"; EvReadFile "cert.pem"] |}).
Proof.
  apply (readHttpsSettings_reports_the_key_failure (machine []) _ "key.pem" "cert.pem"
           _ "ENOENT: no such file or directory, open 'cert.pem'" initial).
  - reflexivity.
  - discriminate.
  - reflexivity.
  - discriminate.
  - reflexivity.
  - reflexivity.
Defined.

(** C3 as stated fails: with both files unreadable the error does not
    describe the certificate problem. *)
Lemma unreadable_certificate_goes_unreported :
  let run := readHttpsSettings (machine []) https_options initial in
  readFile (machine []) "key.pem"
  = inr "ENOENT: no such file or directory, open 'key.pem'" /\
  readFile (machine []) "cert.pem"
  = inr "ENOENT: no such file or directory, open 'cert.pem'" /\
  exists e,
    thrown run = Some e /\
    mentions "ENOENT: no such file or directory, open 'key.pem'" (error_message e) = true /\
    mentions "ENOENT: no such file or directory, open 'cert.pem'" (error_message e) = false /\
    mentions "certificate" (error_message e) = false.
Proof.
  split; [reflexivity|]. split; [reflexivity|].
  eexists. split; [vm_compute; reflexivity|].
  repeat split; vm_compute; reflexivity.
Qed.

(** *** The settings merger *)

Lemma or_default_dist_Ok W a b st :
  exists d st', or_default_dist W a b st = (Ok d, st').
Proof.
  unfold or_default_dist. destruct (truthy a); [eexists _, _; reflexivity|].
  destruct (truthy b); eexists _, _; reflexivity.
Qed.







(** *** Keys of the branch settings *)

Lemma spread_command_lookup_ne (c : jsval) k :
  k <> "command" ->
  spread (js_and c (JObj {["command" := c]})) ∅ !! k = None.
Proof.
  intros Hk. unfold js_and. destruct (truthy c) eqn:Hc; simpl.
  - rewrite lookup_union, lookup_singleton_ne, lookup_empty by congruence. reflexivity.
  - destruct c; simpl in Hc; try discriminate; reflexivity.
Qed.

Lemma mergeSettings_Ok_inv W devConfig frameworkSettings st s st' :
  mergeSettings W devConfig frameworkSettings st = (Ok s, st') ->
  exists command port dist framework env pollingStrategies useStaticServer,
    s = <["command" := command]>
        (<["frameworkPort" := port]>
        (<["dist" := dist]>
        (<["framework" := framework]>
        (<["env" := env]>
        (<["pollingStrategies" := pollingStrategies]>
        (<["useStaticServer" := useStaticServer]> ∅)))))).
Proof.
  unfold mergeSettings. cbv zeta. intros H.
  inv_bind H as port st1 Hport. inv_bind H as dist st2 Hdist.
  injection H as <- <-. eexists _, _, _, _, _, _, _. reflexivity.
Qed.

Lemma handleCustomFramework_Ok_inv W devConfig st s st' :
  handleCustomFramework W devConfig st = (Ok s, st') ->
  exists dist,
    s = <["command" := prop devConfig "command"]>
        (<["frameworkPort" := prop devConfig "targetPort"]>
        (<["dist" := dist]>
        (<["framework" := JStr "#custom"]>
        (<["pollingStrategies" := js_or (prop devConfig "pollingStrategies") (JArr [])]> ∅)))).
Proof.
  unfold handleCustomFramework. destruct (negb _); [discriminate|]. intros H.
  inv_bind H as dist st1 Hdist. injection H as <- <-. exists dist. reflexivity.
Qed.


Lemma js_or_undefined_r a b : js_or (js_or a JUndefined) b = js_or a b.
Proof.
  unfold js_or. destruct (truthy a) eqn:Ha; simpl.
  - rewrite Ha. reflexivity.
  - reflexivity.
Qed.





(** *** Regular computations *)

Lemma regular_ret {A} (a : A) : regular (ret a).
Proof. intros n t. simpl. rewrite app_nil_r. reflexivity. Qed.

Lemma regular_throw {A} e : regular (@throw A e).
Proof. intros n t. simpl. rewrite app_nil_r. reflexivity. Qed.

Lemma regular_emit e : regular (emit e).
Proof. intros n t. reflexivity. Qed.

Lemma regular_probePort W p : regular (probePort W p).
Proof. intros n t. reflexivity. Qed.

Lemma regular_anyPort W : regular (anyPort W).
Proof. intros n t. reflexivity. Qed.

Lemma regular_bind {A B} (c : M A) (k : A -> M B) :
  regular c -> (forall a, regular (k a)) -> regular (bind c k).
Proof.
  intros Hc Hk n t. unfold bind. rewrite (Hc n t).
  destruct (c {| probes := n; trace := [] |}) as [[a|e] [n1 t1]]; simpl.
  - rewrite (Hk a n1 (t ++ t1)%list), (Hk a n1 t1). simpl.
    rewrite app_assoc. reflexivity.
  - reflexivity.
Qed.

Lemma regular_fst {A} (c : M A) st1 st2 :
  regular c -> probes st1 = probes st2 -> fst (c st1) = fst (c st2).
Proof.
  intros Hc. destruct st1 as [n t1], st2 as [m t2]. simpl. intros <-.
  rewrite (Hc n t1), (Hc n t2). reflexivity.
Qed.

Ltac regular_step :=
  first
    [ apply regular_ret | apply regular_throw | apply regular_emit
    | apply regular_probePort | apply regular_anyPort
    | apply regular_bind; [| intros ? ]
    | match goal with
      | |- regular (if ?b then _ else _) => destruct b
      | |- regular (match ?x with _ => _ end) => destruct x
      end ].

Ltac regular := repeat regular_step.

Lemma regular_validateNumberProperty devConfig property :
  regular (validateNumberProperty devConfig property).
Proof. unfold validateNumberProperty. regular. Qed.

Lemma regular_getPort W port : regular (getPort W port).
Proof. unfold getPort. regular. Qed.

Lemma regular_acquirePort W configuredPort defaultPort errorMessage :
  regular (acquirePort W configuredPort defaultPort errorMessage).
Proof.
  unfold acquirePort. destruct (truthy configuredPort); [regular|].
  apply regular_getPort.
Qed.

Lemma regular_or_default_dist W a b : regular (or_default_dist W a b).
Proof. unfold or_default_dist, getDefaultDist, log. regular. Qed.

Lemma regular_handleStaticServer W devConfig options projectDir :
  regular (handleStaticServer W devConfig options projectDir).
Proof.
  unfold handleStaticServer, when, log, relative_to_project, getStaticServerPort.
  apply regular_bind; [apply regular_validateNumberProperty | intros _].
  apply regular_bind; [regular | intros _].
  apply regular_bind; [regular | intros _].
  apply regular_bind; [apply regular_or_default_dist | intros dist].
  apply regular_bind; [regular | intros relative].
  apply regular_bind; [regular | intros _].
  apply regular_bind; [apply regular_acquirePort | intros p].
  regular.
Qed.

Lemma regular_readHttpsSettings W options : regular (readHttpsSettings W options).
Proof.
  unfold readHttpsSettings. destruct options; try apply regular_throw.
  destruct (negb _ || negb _); [apply regular_throw|].
  destruct (prop o "keyFile"); try apply regular_throw.
  destruct (prop o "certFile"); try apply regular_throw.
  regular.
Qed.

Lemma regular_finishSettings W devConfig projectDir settings :
  regular (finishSettings W devConfig projectDir settings).
Proof.
  unfold finishSettings, validateConfiguredPort, getInternalFunctionsDir.
  apply regular_bind; [regular | intros _].
  apply regular_bind; [apply regular_acquirePort | intros port].
  apply regular_bind; [regular | intros internal].
  apply regular_bind.
  - destruct (truthy _); [|regular].
    apply regular_bind; [apply regular_getPort | intros; regular].
  - intros result. destruct (truthy _); [|regular].
    apply regular_bind; [apply regular_readHttpsSettings | intros; regular].
Qed.

Lemma regular_staticServerResolution W devConfig options projectDir :
  regular (staticServerResolution W devConfig options projectDir).
Proof.
  unfold staticServerResolution.
  apply regular_bind; [apply regular_handleStaticServer | intros settings].
  apply regular_finishSettings.
Qed.

(** *** Detection that finds nothing *)

Lemma prop_insert_ne (o : obj) k k' v : k <> k' -> prop (<[k := v]> o) k' = prop o k'.
Proof. intros Hne. unfold prop. rewrite lookup_insert_ne by exact Hne. reflexivity. Qed.

Lemma prop_insert_undefined (o : obj) k k' :
  o !! k = None -> prop (<[k := JUndefined]> o) k' = prop o k'.
Proof.
  intros Hnone. unfold prop. destruct (decide (k = k')) as [<- | Hne].
  - rewrite lookup_insert_eq, Hnone. reflexivity.
  - rewrite lookup_insert_ne by exact Hne. reflexivity.
Qed.

Lemma finishSettings_insert_plugins W devConfig projectDir settings v st :
  finishSettings W devConfig projectDir (<["plugins" := v]> settings) st
  = (map_outcome (insert "plugins" v)
       (fst (finishSettings W devConfig projectDir settings st)),
     snd (finishSettings W devConfig projectDir settings st)).
Proof.
  unfold finishSettings. rewrite !prop_insert_ne by discriminate.
  unfold bind.
  destruct (validateConfiguredPort _ _ st) as [[[]|e] st0]; [|reflexivity].
  destruct (acquirePort _ _ _ _ st0) as [[port|e] st1]; [|reflexivity].
  destruct (getInternalFunctionsDir _ _ st1) as [[internal|e] st2]; [|reflexivity].
  assert (Hcomm :
    <["functions" := js_or (prop devConfig "functions") (prop settings "functions")]>
      (<["jwtRolePath" := js_or (prop devConfig "jwtRolePath")
                                (JStr "app_metadata.authorization.roles")]>
      (<["jwtSecret" := js_or (prop devConfig "jwtSecret") (JStr "secret")]>
      (<["port" := JNum port]> (<["plugins" := v]> settings))))
    = <["plugins" := v]>
      (<["functions" := js_or (prop devConfig "functions") (prop settings "functions")]>
      (<["jwtRolePath" := js_or (prop devConfig "jwtRolePath")
                                (JStr "app_metadata.authorization.roles")]>
      (<["jwtSecret" := js_or (prop devConfig "jwtSecret") (JStr "secret")]>
      (<["port" := JNum port]> settings))))).
  { apply map_eq. intros k. destruct (decide (k = "plugins")) as [-> | Hk].
    - rewrite !lookup_insert_ne by discriminate. rewrite !lookup_insert_eq. reflexivity.
    - rewrite (lookup_insert_ne _ "plugins" k) by congruence.
      rewrite !lookup_insert. repeat case_decide; try reflexivity; congruence. }
  rewrite Hcomm. clear Hcomm.
  set (base := <["functions" := _]> _).
  destruct (truthy (js_or _ internal)).
  - destruct (getPort _ _ st2) as [[fp|e] st3]; [|reflexivity]. unfold ret.
    destruct (truthy (prop devConfig "https")).
    + destruct (readHttpsSettings _ _ st3) as [[https|e] st4]; [|reflexivity].
      simpl. do 2 f_equal.
      rewrite (insert_insert_ne _ "functionsPort" "plugins") by discriminate.
      rewrite (insert_insert_ne _ "https" "plugins") by discriminate. reflexivity.
    + simpl. do 2 f_equal.
      rewrite (insert_insert_ne _ "functionsPort" "plugins") by discriminate. reflexivity.
  - unfold ret. destruct (truthy (prop devConfig "https")).
    + destruct (readHttpsSettings _ _ st2) as [[https|e] st3]; [|reflexivity].
      simpl. do 2 f_equal.
      rewrite (insert_insert_ne _ "https" "plugins") by discriminate. reflexivity.
    + reflexivity.
Qed.

Lemma staticServerResolution_no_plugins W devConfig options projectDir st s st' :
  staticServerResolution W devConfig options projectDir st = (Ok s, st') ->
  s !! "plugins" = None.
Proof.
  unfold staticServerResolution. intros H.
  inv_bind H as settings st1 Hs.
  apply handleStaticServer_Ok_inv in Hs as (dist & p & _ & ->).
  apply finishSettings_Ok_inv in H as (port & fp & https & -> & _).
  rewrite finished_lookup_other by discriminate.
  rewrite !lookup_insert_ne by discriminate.
  apply spread_command_lookup_ne. discriminate.
Qed.

Lemma undetected_auto_run W devConfig options project projectDir st :
  prop devConfig "framework" = JStr "#auto" ->
  truthy (prop options "dir") = false ->
  truthy (hasCommandAndTargetPort devConfig) = false ->
  detectable W project = [] ->
  detectServerSettings W devConfig options project projectDir st
  = (settings <- handleStaticServer W devConfig options projectDir ;;
     finishSettings W devConfig projectDir (<["plugins" := JUndefined]> settings))
      {| probes := probes st;
         trace := ((trace st ++ [EvBuildSettings])
                   ++ [EvLog [WARN W;
                              Plain " No app server detected. Using simple static server"]])%list |}.
Proof.
  intros Hf Hd Hrun Hnone. unfold detectServerSettings.
  rewrite (bind_Ok _ _ _ _ _ (validateStringProperty_string _ _ _ st Hf)).
  unfold branchSettings. rewrite Hd, Hf. cbn [strict_eq].
  change (String.eqb "#auto" "#static") with false.
  change (String.eqb "#auto" "#auto") with true. cbn [orb].
  unfold autoSettings. rewrite Hrun. cbn [negb].
  unfold detectFrameworkSettings. rewrite Hnone.
  unfold bind at 1 2 3 4 5. unfold emit, log, emit, ret. cbn [probes trace].
  unfold bind.
  destruct (handleStaticServer W devConfig options projectDir _) as [[settings|e] st1];
    reflexivity.
Qed.

(** C7, as amended: when [framework = '#auto'], detection is invoked and
    finds nothing, [detectServerSettings] returns what the static-server
    path alone returns for the same inputs with one more key, [plugins],
    holding [undefined] (a key the static path's result does not have);
    it fails exactly when the static path fails, with the same error.
    Every property read from the two results gives the same value. *)
Theorem undetected_auto_is_static_plus_plugins_key
    W devConfig options project projectDir st :
  prop devConfig "framework" = JStr "#auto" ->
  truthy (prop options "dir") = false ->
  truthy (hasCommandAndTargetPort devConfig) = false ->
  detectable W project = [] ->
  fst (detectServerSettings W devConfig options project projectDir st)
  = map_outcome (insert "plugins" JUndefined)
      (fst (staticServerResolution W devConfig options projectDir st))
  /\ forall s',
       fst (staticServerResolution W devConfig options projectDir st) = Ok s' ->
       s' !! "plugins" = None
       /\ forall k, prop (<["plugins" := JUndefined]> s') k = prop s' k.
Proof.
  intros Hf Hd Hrun Hnone. split.
  - rewrite (undetected_auto_run _ _ _ _ _ _ Hf Hd Hrun Hnone).
    set (st1 := {| probes := probes st; trace := _ |}).
    rewrite (regular_fst _ st st1 (regular_staticServerResolution _ _ _ _) eq_refl).
    unfold staticServerResolution, bind.
    destruct (handleStaticServer W devConfig options projectDir st1) as [[settings|e] st2];
      [|reflexivity].
    rewrite finishSettings_insert_plugins. reflexivity.
  - intros s' Hs'.
    destruct (staticServerResolution W devConfig options projectDir st) as [r st'] eqn:Hr.
    simpl in Hs'. subst r.
    pose proof (staticServerResolution_no_plugins _ _ _ _ _ _ _ Hr) as Hnp.
    split; [exact Hnp|]. intros k. apply prop_insert_undefined. exact Hnp.
Qed.

Lemma undetected_auto_is_static_plus_plugins_key_witness :
  fst (detectServerSettings (machine []) auto_config ∅ empty_project "/site" initial)
  = map_outcome (insert "plugins" JUndefined)
      (fst (staticServerResolution (machine []) auto_config ∅ "/site" initial)).
Proof.
  exact (proj1 (undetected_auto_is_static_plus_plugins_key
                  (machine []) auto_config ∅ empty_project "/site" initial
                  eq_refl eq_refl eq_refl eq_refl)).
Defined.

(** C7 as stated fails: the two results are not the same object.  With
    [framework = '#auto'] and nothing detected the result has a [plugins]
    key (holding [undefined]); the static path's result, which is also what
    [framework = '#static'] gives, has none. *)
Lemma undetected_auto_differs_from_static :
  let auto :=
    detectServerSettings (machine []) auto_config ∅ empty_project "/site" initial in
  let static := staticServerResolution (machine []) auto_config ∅ "/site" initial in
  let forced :=
    detectServerSettings (machine []) static_config ∅ empty_project "/site" initial in
  thrown auto = None /\ thrown static = None /\
  settings_of forced = settings_of static /\
  settings_of auto !! "plugins" = Some JUndefined /\
  settings_of static !! "plugins" = None /\
  settings_of auto <> settings_of static.
Proof.
  repeat split; try (vm_compute; reflexivity).
  intros Heq. apply (f_equal (fun m : obj => m !! "plugins")) in Heq.
  vm_compute in Heq. discriminate Heq.
Qed.

(** *** Telemetry flags *)

Lemma track_disabled P S eventName p :
  Telemetry.telemetryDisabled (Telemetry.settings p) = true ->
  Telemetry.track P S eventName p = p.
Proof. unfold Telemetry.track. intros ->. reflexivity. Qed.

(** C9: an invocation with [--telemetry-disable] sends no request to the
    tracking endpoint, whatever command it runs and whatever was persisted
    before; an invocation with [--telemetry-enable] sends exactly one
    request, a POST to [<api>/track] whose event is
    'cli:user_telemetryEnabled', whose [anonymousId] is a version-4 UUID
    (given that the generator and any identifier persisted earlier are), and
    whose user-agent is '<name>/<version>'. *)
Theorem telemetry_flags P S u command :
  Telemetry.is_uuid_v4 (Telemetry.generated_uuid S) = true ->
  (forall id, Telemetry.userId u = Some id -> Telemetry.is_uuid_v4 id = true) ->
  Telemetry.sent (Telemetry.invoke P S (Some Telemetry.TelemetryDisable) command u) = []
  /\ exists r,
       Telemetry.sent (Telemetry.invoke P S (Some Telemetry.TelemetryEnable) None u) = [r]
       /\ Telemetry.method r = "POST"
       /\ Telemetry.url r = Telemetry.api S +:+ "/track"
       /\ Telemetry.event r = "cli:user_telemetryEnabled"
       /\ Telemetry.is_uuid_v4 (Telemetry.anonymousId r) = true
       /\ Telemetry.user_agent r = Telemetry.name P +:+ "/" +:+ Telemetry.version P.
Proof.
  intros Hgen Hkept. split.
  - unfold Telemetry.invoke. destruct command; [|reflexivity].
    rewrite track_disabled by reflexivity. reflexivity.
  - unfold Telemetry.invoke, Telemetry.track, Telemetry.set_telemetryDisabled,
      Telemetry.anonymous_id. cbn [Telemetry.settings Telemetry.telemetryDisabled
                                   Telemetry.userId Telemetry.sent].
    destruct (Telemetry.userId u) as [id|] eqn:Hid.
    + eexists. split; [reflexivity|]. cbn.
      repeat split; try reflexivity. apply Hkept. reflexivity.
    + eexists. split; [reflexivity|]. cbn.
      repeat split; try reflexivity. exact Hgen.
Qed.

Lemma telemetry_flags_witness :
  Telemetry.sent
    (Telemetry.invoke Telemetry.netlify_cli Telemetry.test_surroundings
       (Some Telemetry.TelemetryDisable) (Some "build") Telemetry.first_run) = []
  /\ exists r,
       Telemetry.sent
         (Telemetry.invoke Telemetry.netlify_cli Telemetry.test_surroundings
            (Some Telemetry.TelemetryEnable) None Telemetry.first_run) = [r]
       /\ Telemetry.method r = "POST"
       /\ Telemetry.url r = "http://localhost/api/v1/track"
       /\ Telemetry.event r = "cli:user_telemetryEnabled"
       /\ Telemetry.is_uuid_v4 (Telemetry.anonymousId r) = true
       /\ Telemetry.user_agent r = "netlify-cli/17.2.2".
Proof.
  apply (telemetry_flags Telemetry.netlify_cli Telemetry.test_surroundings
           Telemetry.first_run (Some "build")).
  - vm_compute. reflexivity.
  - intros id Hid. discriminate Hid.
Defined.

(** ** Further properties of the resolution *)

(** *** Plugins to install *)

Lemma getPluginsToAutoInstall_fold installed (recommended acc : list string) :
  fold_left
    (fun acc plugin =>
       if includes installed plugin && negb (includes pluginsToAlwaysInstall plugin)
       then acc else (acc ++ [plugin])%list)
    recommended acc
  = (acc ++ List.filter
              (fun plugin => negb (includes installed plugin)
                             || String.eqb plugin "@netlify/plugin-nextjs")
              recommended)%list.
Proof.
  revert acc. induction recommended as [|plugin rest IH]; intros acc; simpl.
  - rewrite app_nil_r. reflexivity.
  - rewrite IH. unfold includes at 2. simpl. rewrite orb_false_r.
    destruct (includes installed plugin); simpl.
    + destruct (String.eqb plugin "@netlify/plugin-nextjs"); simpl.
      * rewrite <- app_assoc. reflexivity.
      * reflexivity.
    + rewrite <- app_assoc. reflexivity.
Qed.

Lemma includes_In l x : includes l x = true <-> In x l.
Proof.
  unfold includes. rewrite existsb_exists. split.
  - intros (y & Hy & Heq). apply String.eqb_eq in Heq. subst. exact Hy.
  - intros Hx. exists x. split; [exact Hx | apply String.eqb_refl].
Qed.

(** X1: [getPluginsToAutoInstall] keeps the recommended plugins, in their
    order, that are not installed yet, and keeps '@netlify/plugin-nextjs'
    even when it is installed; nothing else is returned, and missing
    arguments count as empty lists. *)
Theorem getPluginsToAutoInstall_spec pluginsInstalled pluginsRecommended :
  getPluginsToAutoInstall pluginsInstalled pluginsRecommended
  = List.filter
      (fun plugin => negb (includes (default [] pluginsInstalled) plugin)
                     || String.eqb plugin "@netlify/plugin-nextjs")
      (default [] pluginsRecommended)
  /\ forall plugin,
       In plugin (getPluginsToAutoInstall pluginsInstalled pluginsRecommended)
       <-> In plugin (default [] pluginsRecommended)
           /\ (~ In plugin (default [] pluginsInstalled)
               \/ plugin = "@netlify/plugin-nextjs").
Proof.
  assert (Heq : getPluginsToAutoInstall pluginsInstalled pluginsRecommended
                = List.filter
                    (fun plugin => negb (includes (default [] pluginsInstalled) plugin)
                                   || String.eqb plugin "@netlify/plugin-nextjs")
                    (default [] pluginsRecommended)).
  { unfold getPluginsToAutoInstall. rewrite getPluginsToAutoInstall_fold. reflexivity. }
  split; [exact Heq|].
  intros plugin. rewrite Heq, List.filter_In, orb_true_iff, negb_true_iff, String.eqb_eq.
  split; intros [Hin Hkeep]; (split; [exact Hin|]).
  - destruct Hkeep as [Hno | ->]; [left | right; reflexivity].
    intros Hinst. apply includes_In in Hinst. congruence.
  - destruct Hkeep as [Hno | ->]; [left | right; reflexivity].
    destruct (includes (default [] pluginsInstalled) plugin) eqn:Hi; [|reflexivity].
    apply includes_In in Hi. contradiction.
Qed.

(** *** The proxy port *)

Lemma finished_lookup_port devConfig settings port functionsPort https :
  finished devConfig settings port functionsPort https !! "port" = Some (JNum port).
Proof.
  unfold finished. rewrite !lookup_add_opt_ne by discriminate.
  rewrite !lookup_insert_ne by discriminate. apply lookup_insert_eq.
Qed.

Lemma finishSettings_port_inv W devConfig projectDir settings st s st' :
  finishSettings W devConfig projectDir settings st = (Ok s, st') ->
  exists st1 st2 port,
    validateConfiguredPort devConfig (prop settings "frameworkPort") st = (Ok tt, st1)
    /\ acquirePort W (prop devConfig "port") DEFAULT_PORT
         [Plain "Could not acquire required "; formatProperty "port"] st1
       = (Ok port, st2)
    /\ s !! "port" = Some (JNum port)
    /\ s !! "frameworkPort" = settings !! "frameworkPort".
Proof.
  unfold finishSettings. intros H.
  inv_bind H as u st1 Hv. destruct u.
  inv_bind H as port st2 Hport.
  inv_bind H as internal st3 Hint.
  inv_bind H as result st4 Hresult.
  exists st1, st2, port. split; [exact Hv|]. split; [exact Hport|].
  assert (Hs : exists functionsPort https,
             s = finished devConfig settings port functionsPort https).
  { destruct (truthy (js_or _ internal)).
    - inv_bind Hresult as fp st5 Hfp. injection Hresult as <- <-.
      destruct (truthy (prop devConfig "https")).
      + inv_bind H as https st6 Hh. injection H as <- <-.
        exists (Some (JNum fp)), (Some https). reflexivity.
      + injection H as <- <-. exists (Some (JNum fp)), None. reflexivity.
    - injection Hresult as <- <-.
      destruct (truthy (prop devConfig "https")).
      + inv_bind H as https st6 Hh. injection H as <- <-.
        exists None, (Some https). reflexivity.
      + injection H as <- <-. exists None, None. reflexivity. }
  destruct Hs as (functionsPort & https & ->).
  split; [apply finished_lookup_port|].
  apply finished_lookup_other; discriminate.
Qed.

Lemma acquirePort_configured_inv W configuredPort defaultPort errorMessage st port st' :
  truthy configuredPort = true ->
  acquirePort W configuredPort defaultPort errorMessage st = (Ok port, st') ->
  configuredPort = JNum port /\ occupied W port = false.
Proof.
  intros Ht. unfold acquirePort. rewrite Ht.
  destruct configuredPort; try discriminate.
  unfold bind, probePort. simpl.
  destruct (occupied W n) eqn:Hocc; simpl; [discriminate|].
  unfold ret. intros [= <- _]. split; [reflexivity | exact Hocc].
Qed.

(** X2: when [devConfig.port] is set, every successful resolution
    returns exactly that port as [port]; the port was free when probed, and
    the returned [frameworkPort] is a different port. *)
Theorem configured_port_is_kept_apart_from_frameworkPort
    W devConfig options project projectDir st s st' :
  truthy (prop devConfig "port") = true ->
  detectServerSettings W devConfig options project projectDir st = (Ok s, st') ->
  exists port,
    prop devConfig "port" = JNum port
    /\ occupied W port = false
    /\ s !! "port" = Some (JNum port)
    /\ s !! "frameworkPort" <> Some (JNum port).
Proof.
  intros Hset H.
  apply detectServerSettings_Ok_inv in H as (settings & st1 & st2 & _ & _ & H).
  apply finishSettings_port_inv in H as (st3 & st4 & port & Hv & Hport & Hp & Hfp).
  destruct (acquirePort_configured_inv _ _ _ _ _ _ _ Hset Hport) as [Hcfg Hfree].
  exists port. split; [exact Hcfg|]. split; [exact Hfree|]. split; [exact Hp|].
  rewrite Hfp. intros Hsame.
  unfold validateConfiguredPort in Hv. rewrite Hset in Hv.
  unfold prop in Hv at 2. rewrite Hsame, Hcfg in Hv. simpl in Hv.
  rewrite Z.eqb_refl in Hv. discriminate Hv.
Qed.

Lemma configured_port_is_kept_apart_from_frameworkPort_witness :
  let run :=
    detectServerSettings (machine []) complete_custom_config ∅ empty_project "/site" initial in
  exists port,
    prop complete_custom_config "port" = JNum port
    /\ occupied (machine []) port = false
    /\ settings_of run !! "port" = Some (JNum port)
    /\ settings_of run !! "frameworkPort" <> Some (JNum port).
Proof.
  intros run.
  assert (Hrun : run = (Ok (settings_of run), snd run)) by (vm_compute; reflexivity).
  exact (configured_port_is_kept_apart_from_frameworkPort
           (machine []) complete_custom_config ∅ empty_project "/site" initial
           (settings_of run) (snd run) eq_refl Hrun).
Defined.

(** *** The '#custom' framework, complete *)

Lemma validateFrameworkConfig_Ok_inv devConfig st u st' :
  validateFrameworkConfig devConfig st = (Ok u, st') ->
  frameworkConfig_valid devConfig = true /\ st' = st.
Proof.
  unfold validateFrameworkConfig, validateStringProperty, validateNumberProperty,
    frameworkConfig_valid.
  destruct (truthy (prop devConfig "command")) eqn:Hc;
    destruct (is_string (prop devConfig "command")) eqn:Hcs;
    destruct (truthy (prop devConfig "port")) eqn:Hp;
    destruct (is_number (prop devConfig "port")) eqn:Hps;
    destruct (truthy (prop devConfig "targetPort")) eqn:Ht;
    destruct (is_number (prop devConfig "targetPort")) eqn:Hts;
    simpl; try discriminate;
    unfold bind, ret; simpl;
    try (destruct (strict_eq (prop devConfig "targetPort") (prop devConfig "port"));
         simpl; try discriminate);
    intros [= <- <-]; split; reflexivity.
Qed.

Lemma truthy_js_and a b : truthy (js_and a b) = truthy a && truthy b.
Proof. unfold js_and. destruct (truthy a) eqn:Ha; [reflexivity | exact Ha]. Qed.

(** X3: under [framework = '#custom'] (no [--dir]) every successful
    resolution hands the configured [command], a non-empty string, and the
    configured [targetPort], a non-zero number, through unchanged as
    [command] and [frameworkPort]; [framework] is '#custom' and the result
    has no [useStaticServer] and no [plugins] key. *)
Theorem custom_framework_passes_command_and_targetPort_through
    W devConfig options project projectDir st s st' :
  prop devConfig "framework" = JStr "#custom" ->
  truthy (prop options "dir") = false ->
  detectServerSettings W devConfig options project projectDir st = (Ok s, st') ->
  s !! "command" = Some (prop devConfig "command")
  /\ s !! "frameworkPort" = Some (prop devConfig "targetPort")
  /\ s !! "framework" = Some (JStr "#custom")
  /\ s !! "useStaticServer" = None
  /\ s !! "plugins" = None
  /\ (exists command, prop devConfig "command" = JStr command /\ command <> EmptyString)
  /\ (exists port, prop devConfig "targetPort" = JNum port /\ port <> 0).
Proof.
  intros Hf Hd H.
  apply detectServerSettings_Ok_inv in H as (settings & st1 & st2 & _ & Hb & H).
  apply finishSettings_Ok_inv in H as (port & fp & https & -> & _).
  unfold branchSettings in Hb. rewrite Hd, Hf in Hb. simpl in Hb.
  inv_bind Hb as u st3 Hv.
  apply validateFrameworkConfig_Ok_inv in Hv as [Hvalid ->].
  pose proof Hb as Hboth. unfold handleCustomFramework in Hboth.
  destruct (truthy (hasCommandAndTargetPort devConfig)) eqn:Hct; [|discriminate Hboth].
  clear Hboth. unfold hasCommandAndTargetPort in Hct.
  rewrite truthy_js_and in Hct. apply andb_true_iff in Hct as [Hc Ht].
  apply handleCustomFramework_Ok_inv in Hb as (dist & ->).
  repeat split;
    try (rewrite finished_lookup_other by discriminate;
         rewrite ?lookup_insert_ne by discriminate;
         first [apply lookup_insert_eq | apply lookup_empty]).
  - unfold frameworkConfig_valid in Hvalid. rewrite Hc in Hvalid. simpl in Hvalid.
    destruct (prop devConfig "command") as [| |?|?|command|?|?]; try discriminate.
    exists command. split; [reflexivity|]. intros ->. discriminate Hc.
  - unfold frameworkConfig_valid in Hvalid. rewrite Ht in Hvalid.
    destruct (prop devConfig "targetPort") as [| |?|n|?|?|?];
      try (rewrite !andb_false_r in Hvalid; simpl in Hvalid;
           rewrite ?andb_false_r in Hvalid; discriminate).
    exists n. split; [reflexivity|]. intros ->. discriminate Ht.
Qed.

Lemma custom_framework_passes_command_and_targetPort_through_witness :
  let run :=
    detectServerSettings (machine []) complete_custom_config ∅ empty_project "/site" initial in
  settings_of run !! "command" = Some (JStr "npm start")
  /\ settings_of run !! "frameworkPort" = Some (JNum 3000)
  /\ settings_of run !! "framework" = Some (JStr "#custom")
  /\ settings_of run !! "useStaticServer" = None.
Proof.
  intros run.
  assert (Hrun : run = (Ok (settings_of run), snd run)) by (vm_compute; reflexivity).
  assert (Hdir : truthy (prop (∅ : obj) "dir") = false) by reflexivity.
  destruct (custom_framework_passes_command_and_targetPort_through
              (machine []) complete_custom_config ∅ empty_project "/site" initial
              (settings_of run) (snd run) eq_refl Hdir Hrun)
    as (Hc & Hp & Hf & Hu & _).
  repeat split; assumption.
Defined.

(** *** Events a run leaves out *)

Lemma avoids_ret {A} P (a : A) : avoids P (ret a).
Proof. intros st. reflexivity. Qed.

Lemma avoids_throw {A} P e : avoids P (@throw A e).
Proof. intros st. reflexivity. Qed.

Lemma avoids_emit P e : P e = false -> avoids P (emit e).
Proof.
  intros He st. simpl. rewrite List.filter_app. simpl. rewrite He. apply app_nil_r.
Qed.

Lemma avoids_probePort P W p :
  (forall free, P (EvProbe p free) = false) -> avoids P (probePort W p).
Proof.
  intros He st. simpl. rewrite List.filter_app. simpl. rewrite He. apply app_nil_r.
Qed.

Lemma avoids_anyPort P W :
  (forall p, P (EvAnyPort p) = false) -> avoids P (anyPort W).
Proof.
  intros He st. simpl. rewrite List.filter_app. simpl. rewrite He. apply app_nil_r.
Qed.

Lemma avoids_bind {A B} P (c : M A) (k : A -> M B) :
  avoids P c -> (forall a, avoids P (k a)) -> avoids P (bind c k).
Proof.
  intros Hc Hk st. unfold bind. specialize (Hc st).
  destruct (c st) as [[a|e] st1]; simpl in *.
  - rewrite (Hk a st1). exact Hc.
  - exact Hc.
Qed.

Ltac avoids_step :=
  first
    [ apply avoids_ret | apply avoids_throw
    | apply avoids_emit; first [reflexivity | solve [auto]]
    | apply avoids_probePort; intros; first [reflexivity | solve [auto]]
    | apply avoids_anyPort; intros; first [reflexivity | solve [auto]]
    | apply avoids_bind; [| intros ? ]
    | match goal with
      | |- avoids _ (if ?b then _ else _) => destruct b
      | |- avoids _ (match ?x with _ => _ end) => destruct x
      end ].

Ltac avoids := cbv zeta; repeat avoids_step.

Section Avoiding.

(** A kind of event that is neither a log line, nor a port event, nor one
    of the two look-ups. *)
Variable P : event -> bool.
Hypothesis P_log : forall line, P (EvLog line) = false.
Hypothesis P_probe : forall p free, P (EvProbe p free) = false.
Hypothesis P_anyPort : forall p, P (EvAnyPort p) = false.
Hypothesis P_getFramework : forall id, P (EvGetFramework id) = false.
Hypothesis P_internal : forall base, P (EvInternalFunctionsDir base) = false.

Variable W : world.

Lemma avoids_log line : avoids P (log line).
Proof. apply avoids_emit, P_log. Qed.

Lemma avoids_validateStringProperty devConfig property :
  avoids P (validateStringProperty devConfig property).
Proof. unfold validateStringProperty. avoids. Qed.

Lemma avoids_validateNumberProperty devConfig property :
  avoids P (validateNumberProperty devConfig property).
Proof. unfold validateNumberProperty. avoids. Qed.

Lemma avoids_validateFrameworkConfig devConfig :
  avoids P (validateFrameworkConfig devConfig).
Proof.
  unfold validateFrameworkConfig.
  apply avoids_bind; [apply avoids_validateStringProperty | intros _].
  apply avoids_bind; [apply avoids_validateNumberProperty | intros _].
  apply avoids_bind; [apply avoids_validateNumberProperty | intros _].
  avoids.
Qed.

Lemma avoids_getPort port : avoids P (getPort W port).
Proof. unfold getPort. avoids. Qed.

Lemma avoids_acquirePort configuredPort defaultPort errorMessage :
  avoids P (acquirePort W configuredPort defaultPort errorMessage).
Proof.
  unfold acquirePort. destruct (truthy configuredPort); [avoids|].
  apply avoids_getPort.
Qed.

Lemma avoids_or_default_dist a b : avoids P (or_default_dist W a b).
Proof.
  unfold or_default_dist, getDefaultDist.
  destruct (truthy a); [avoids|]. destruct (truthy b); [avoids|].
  repeat (apply avoids_bind; [first [apply avoids_log | apply avoids_ret] | intros ?]).
  avoids.
Qed.

Lemma avoids_handleStaticServer devConfig options projectDir :
  avoids P (handleStaticServer W devConfig options projectDir).
Proof.
  unfold handleStaticServer, when, relative_to_project, getStaticServerPort.
  apply avoids_bind; [apply avoids_validateNumberProperty | intros _].
  apply avoids_bind;
    [destruct (truthy _); [apply avoids_log|];
     destruct (strict_eq _ _); [apply avoids_log | apply avoids_ret] | intros _].
  apply avoids_bind; [destruct (truthy _); [apply avoids_log | apply avoids_ret] | intros _].
  apply avoids_bind; [apply avoids_or_default_dist | intros dist].
  apply avoids_bind; [destruct dist; avoids | intros relative].
  apply avoids_bind; [apply avoids_log | intros _].
  apply avoids_bind; [apply avoids_acquirePort | intros p].
  avoids.
Qed.

Lemma avoids_mergeSettings devConfig frameworkSettings :
  avoids P (mergeSettings W devConfig frameworkSettings).
Proof.
  unfold mergeSettings, getStaticServerPort. cbv zeta.
  apply avoids_bind.
  - destruct (negb _); [|avoids].
    apply avoids_bind; [apply avoids_acquirePort | intros ?; avoids].
  - intros port. apply avoids_bind; [apply avoids_or_default_dist | intros ?; avoids].
Qed.

Lemma avoids_handleCustomFramework devConfig :
  avoids P (handleCustomFramework W devConfig).
Proof.
  unfold handleCustomFramework. destruct (negb _); [avoids|].
  apply avoids_bind; [apply avoids_or_default_dist | intros ?; avoids].
Qed.

Lemma avoids_handleForcedFramework devConfig :
  avoids P (handleForcedFramework W devConfig).
Proof.
  unfold handleForcedFramework.
  apply avoids_bind; [apply avoids_emit, P_getFramework | intros _].
  destruct (getFramework W _); [|avoids]. apply avoids_mergeSettings.
Qed.

(** The last step avoids [P] as soon as reading the certificate does. *)
Lemma avoids_finishSettings devConfig projectDir settings :
  (truthy (prop devConfig "https") = true ->
   avoids P (readHttpsSettings W (prop devConfig "https"))) ->
  avoids P (finishSettings W devConfig projectDir settings).
Proof.
  intros Hhttps. unfold finishSettings, validateConfiguredPort, getInternalFunctionsDir.
  apply avoids_bind; [avoids | intros _].
  apply avoids_bind; [apply avoids_acquirePort | intros port].
  apply avoids_bind;
    [apply avoids_bind; [apply avoids_emit, P_internal | intros ?; avoids] | intros internal].
  apply avoids_bind.
  - destruct (truthy (js_or _ internal)); [|avoids].
    apply avoids_bind; [apply avoids_getPort | intros ?; avoids].
  - intros result. destruct (truthy (prop devConfig "https")); [|avoids].
    apply avoids_bind; [apply Hhttps; reflexivity | intros ?; avoids].
Qed.

(** The whole resolution avoids [P] as soon as detection and reading the
    certificate do. *)
Lemma avoids_detectServerSettings devConfig options project projectDir :
  (truthy (prop options "dir") = false ->
   prop devConfig "framework" = JStr "#auto" ->
   truthy (hasCommandAndTargetPort devConfig) = false ->
   avoids P (detectFrameworkSettings W project)) ->
  (truthy (prop devConfig "https") = true ->
   avoids P (readHttpsSettings W (prop devConfig "https"))) ->
  avoids P (detectServerSettings W devConfig options project projectDir).
Proof.
  intros Hdetect Hhttps. unfold detectServerSettings.
  apply avoids_bind; [apply avoids_validateStringProperty | intros _].
  apply avoids_bind; [| intros settings; apply avoids_finishSettings, Hhttps].
  unfold branchSettings.
  destruct (truthy (prop options "dir") || _) eqn:Hstatic;
    [apply avoids_handleStaticServer|].
  apply orb_false_iff in Hstatic as [Hdir _].
  destruct (strict_eq (prop devConfig "framework") (JStr "#auto")) eqn:Hauto.
  - assert (Hfw : prop devConfig "framework" = JStr "#auto").
    { destruct (prop devConfig "framework"); try discriminate Hauto.
      simpl in Hauto. apply String.eqb_eq in Hauto. congruence. }
    unfold autoSettings.
    apply avoids_bind.
    + destruct (negb _) eqn:Hrun; [|apply avoids_ret].
      apply negb_true_iff in Hrun. apply Hdetect; assumption.
    + intros frameworkSettings. apply avoids_bind; [| intros ?; avoids].
      destruct frameworkSettings as [detected|].
      * apply avoids_bind; [apply avoids_validateFrameworkConfig | intros _].
        apply avoids_mergeSettings.
      * apply avoids_bind; [apply avoids_log | intros _].
        apply avoids_handleStaticServer.
  - destruct (strict_eq _ (JStr "#custom")).
    + apply avoids_bind; [apply avoids_validateFrameworkConfig | intros _].
      apply avoids_handleCustomFramework.
    + destruct (truthy (prop devConfig "framework")); [|avoids].
      apply avoids_bind; [apply avoids_validateFrameworkConfig | intros _].
      apply avoids_handleForcedFramework.
Qed.

End Avoiding.

Lemma avoids_readHttpsSettings P W options :
  (forall path, P (EvReadFile path) = false) ->
  avoids P (readHttpsSettings W options).
Proof.
  intros HP. unfold readHttpsSettings.
  destruct options; try apply avoids_throw.
  destruct (negb _ || negb _); [apply avoids_throw|].
  destruct (prop o "keyFile"); try apply avoids_throw.
  destruct (prop o "certFile"); try apply avoids_throw.
  apply avoids_bind; [apply avoids_emit, HP | intros _].
  apply avoids_bind; [apply avoids_emit, HP | intros _].
  avoids.
Qed.

Ltac plain_kind := intros; reflexivity.

Lemma strict_eq_JStr_false v s :
  v <> JStr s -> strict_eq v (JStr s) = false.
Proof.
  intros Hne. destruct v; try reflexivity. simpl.
  apply String.eqb_neq. intros ->. apply Hne. reflexivity.
Qed.

(** X4: the project is looked at (its build settings requested, the
    selection prompt shown) only on the '#auto' path with detection due:
    under [--dir], under any [framework] other than '#auto', or when both
    [command] and [targetPort] are configured, a run of
    [detectServerSettings] does neither, whether it succeeds or fails. *)
Theorem detection_is_confined_to_auto W devConfig options project projectDir :
  truthy (prop options "dir") = true
  \/ prop devConfig "framework" <> JStr "#auto"
  \/ truthy (hasCommandAndTargetPort devConfig) = true ->
  avoids is_detection_event
    (detectServerSettings W devConfig options project projectDir).
Proof.
  intros Hcase.
  apply avoids_detectServerSettings; try plain_kind.
  - intros Hdir Hfw Hrun. destruct Hcase as [Hd | [Hne | Hboth]]; congruence.
  - intros _. apply avoids_readHttpsSettings. plain_kind.
Qed.

Lemma detection_is_confined_to_auto_witness :
  avoids is_detection_event
    (detectServerSettings (machine []) complete_custom_config ∅ empty_project "/site").
Proof.
  apply detection_is_confined_to_auto. right. left. discriminate.
Defined.



(** X6: the selection prompt is shown only when at least two of the
    project's settings are candidates (in the workspace, with a dev
    command): with one candidate or none, no run of [detectServerSettings]
    prompts the user. *)
Theorem no_prompt_without_a_choice W devConfig options project projectDir :
  (length (detectable W project) <= 1)%nat ->
  avoids is_prompt_event (detectServerSettings W devConfig options project projectDir).
Proof.
  intros Hfew.
  apply avoids_detectServerSettings; try plain_kind.
  - intros _ _ _. unfold detectFrameworkSettings.
    apply avoids_bind; [apply avoids_emit; reflexivity | intros _].
    destruct (detectable W project) as [|only [|second rest]];
      [avoids | avoids | simpl in Hfew; lia].
  - intros _. apply avoids_readHttpsSettings. plain_kind.
Qed.

Lemma no_prompt_without_a_choice_witness :
  avoids is_prompt_event
    (detectServerSettings (machine []) auto_config ∅ one_candidate "/site").
Proof. apply no_prompt_without_a_choice. vm_compute. lia. Defined.
(** *** Reading the certificate, continued *)

Lemma truthy_JStr s : truthy (JStr s) = true <-> s <> EmptyString.
Proof.
  simpl. rewrite negb_true_iff. split.
  - intros H. apply String.eqb_neq. exact H.
  - intros H. apply String.eqb_neq. exact H.
Qed.

(** X7: [readHttpsSettings] succeeds exactly when its argument is an
    object whose [keyFile] and [certFile] are non-empty strings naming two
    readable files; it then returns their contents as [key] and [cert]
    together with the two resolved paths, having read each file once, the
    key first. *)
Theorem readHttpsSettings_succeeds_iff W options st result st' :
  readHttpsSettings W options st = (Ok result, st')
  <-> exists (o : obj) keyFile certFile key cert,
        options = JObj o
        /\ prop o "keyFile" = JStr keyFile /\ keyFile <> EmptyString
        /\ prop o "certFile" = JStr certFile /\ certFile <> EmptyString
        /\ readFile W keyFile = inl key
        /\ readFile W certFile = inl cert
        /\ result = https_settings W keyFile certFile key cert
        /\ st' = {| probes := probes st;
                    trace := (trace st ++ [EvReadFile keyFile; EvReadFile certFile])%list |}.
Proof.
  split.
  - unfold readHttpsSettings. destruct options as [| |?|?|?|?|o]; try discriminate.
    destruct (prop o "keyFile") as [| |?|?|keyFile|?|?] eqn:Hkf;
      try (destruct (negb _ || negb _); discriminate).
    destruct (prop o "certFile") as [| |?|?|certFile|?|?] eqn:Hcf;
      try (destruct (negb _ || negb _); discriminate).
    destruct (truthy (JStr keyFile)) eqn:Hk; [|discriminate].
    destruct (truthy (JStr certFile)) eqn:Hc; [|discriminate].
    cbn [negb orb].
    unfold bind, emit. simpl.
    destruct (readFile W keyFile) as [key|keyError] eqn:Hkey; [|discriminate].
    destruct (readFile W certFile) as [cert|certError] eqn:Hcert; [|discriminate].
    unfold ret. intros [= <- <-].
    exists o, keyFile, certFile, key, cert.
    apply truthy_JStr in Hk, Hc. rewrite <- app_assoc.
    repeat split; try reflexivity; assumption.
  - intros (o & keyFile & certFile & key & cert
            & -> & Hk & Hkne & Hc & Hcne & Hkey & Hcert & -> & ->).
    unfold readHttpsSettings. rewrite Hk, Hc.
    apply truthy_JStr in Hkne, Hcne. rewrite Hkne, Hcne. simpl.
    unfold bind, emit. simpl. rewrite Hkey, Hcert. unfold ret, https_settings.
    rewrite <- app_assoc. reflexivity.
Qed.

Lemma readHttpsSettings_succeeds_iff_witness :
  readHttpsSettings machine_with_certificate https_options initial
  = (Ok (https_settings machine_with_certificate "key.pem" "cert.pem"
           "PRIVATE KEY" "CERTIFICATE"),
     {| probes := 0; trace := [EvReadFile "key.pem"; EvReadFile "cert.pem"] |}).
Proof.
  apply (proj2 (readHttpsSettings_succeeds_iff machine_with_certificate https_options
                  initial _ _)).
  eexists _, "key.pem", "cert.pem", "PRIVATE KEY", "CERTIFICATE".
  repeat split; try reflexivity; discriminate.
Defined.

(** X8: when [readHttpsSettings] fails, it is either with a type error
    about the shape of the https options, raised before any file is
    opened, or with an error raised after both files have been read: the
    one about the private key file if that read failed, otherwise the one
    about the certificate file. *)
Theorem readHttpsSettings_failures W options st e st' :
  readHttpsSettings W options st = (Throw e, st') ->
  (exists message, e = TypeError message /\ st' = st)
  \/ exists (o : obj) keyFile certFile,
       options = JObj o
       /\ prop o "keyFile" = JStr keyFile
       /\ prop o "certFile" = JStr certFile
       /\ st' = {| probes := probes st;
                   trace := (trace st ++ [EvReadFile keyFile; EvReadFile certFile])%list |}
       /\ match readFile W keyFile, readFile W certFile with
          | inr keyError, _ =>
              e = Error [Plain ("Error reading private key file: " +:+ keyError)]
          | inl _, inr certError =>
              e = Error [Plain ("Error reading certificate file: " +:+ certError)]
          | inl _, inl _ => False
          end.
Proof.
  unfold readHttpsSettings.
  destruct options as [| |?|?|?|?|o];
    try (intros [= <- <-]; left; eexists; split; reflexivity).
  destruct (negb _ || negb _);
    [intros [= <- <-]; left; eexists; split; reflexivity|].
  destruct (prop o "keyFile") as [| |?|?|keyFile|?|?] eqn:Hk;
    try (intros [= <- <-]; left; eexists; split; reflexivity).
  destruct (prop o "certFile") as [| |?|?|certFile|?|?] eqn:Hc;
    try (intros [= <- <-]; left; eexists; split; reflexivity).
  unfold bind, emit. simpl. intros H. right.
  exists o, keyFile, certFile.
  destruct (readFile W keyFile) as [key|keyError];
    [destruct (readFile W certFile) as [cert|certError]; [discriminate H|]|];
    injection H as <- <-; rewrite <- app_assoc; repeat split; try reflexivity; assumption.
Qed.

Lemma readHttpsSettings_failures_witness :
  (exists message, missing_key_error = TypeError message /\ both_read = initial)
  \/ exists (o : obj) keyFile certFile,
       https_options = JObj o
       /\ prop o "keyFile" = JStr keyFile
       /\ prop o "certFile" = JStr certFile
       /\ both_read
          = {| probes := probes initial;
               trace := (trace initial ++ [EvReadFile keyFile; EvReadFile certFile])%list |}
       /\ match readFile (machine []) keyFile, readFile (machine []) certFile with
          | inr keyError, _ =>
              missing_key_error
              = Error [Plain ("Error reading private key file: " +:+ keyError)]
          | inl _, inr certError =>
              missing_key_error
              = Error [Plain ("Error reading certificate file: " +:+ certError)]
          | inl _, inl _ => False
          end.
Proof.
  apply (readHttpsSettings_failures (machine []) https_options initial
           missing_key_error both_read).
  reflexivity.
Defined.

(** *** Plugins in the result *)

Lemma strict_eq_JStr_true v s : strict_eq v (JStr s) = true -> v = JStr s.
Proof.
  destruct v; try discriminate. simpl. intros H.
  apply String.eqb_eq in H. congruence.
Qed.

Lemma branchSettings_plugins W devConfig options project projectDir st settings st' :
  branchSettings W devConfig options project projectDir st = (Ok settings, st') ->
  if negb (truthy (prop options "dir"))
     && strict_eq (prop devConfig "framework") (JStr "#auto")
  then is_Some (settings !! "plugins")
  else settings !! "plugins" = None.
Proof.
  unfold branchSettings.
  destruct (truthy (prop options "dir")) eqn:Hdir; cbn [orb negb andb].
  { intros H. apply handleStaticServer_Ok_inv in H as (dist & p & _ & ->).
    rewrite !lookup_insert_ne by discriminate.
    apply spread_command_lookup_ne. discriminate. }
  destruct (strict_eq (prop devConfig "framework") (JStr "#static")) eqn:Hstatic.
  { apply strict_eq_JStr_true in Hstatic. rewrite Hstatic. cbn.
    intros H. apply handleStaticServer_Ok_inv in H as (dist & p & _ & ->).
    rewrite !lookup_insert_ne by discriminate.
    apply spread_command_lookup_ne. discriminate. }
  destruct (strict_eq _ (JStr "#auto")).
  { unfold autoSettings. intros H.
    inv_bind H as detected st1 Hdet. inv_bind H as inner st2 Hinner.
    injection H as <- <-. rewrite lookup_insert_eq. eexists. reflexivity. }
  destruct (strict_eq _ (JStr "#custom")).
  { intros H. inv_bind H as u st1 Hv.
    apply handleCustomFramework_Ok_inv in H as (dist & ->).
    rewrite !lookup_insert_ne by discriminate. apply lookup_empty. }
  destruct (truthy (prop devConfig "framework")).
  { intros H. inv_bind H as u st1 Hv.
    unfold handleForcedFramework in H. inv_bind H as u' st2 He.
    destruct (getFramework W _); [|discriminate].
    apply mergeSettings_Ok_inv in H as (? & ? & ? & ? & ? & ? & ? & ->).
    rewrite !lookup_insert_ne by discriminate. apply lookup_empty. }
  intros [= <- <-]. apply lookup_empty.
Qed.

(** X9: a successful resolution has a [plugins] key exactly on the
    '#auto' path (no [--dir], [framework = '#auto']).  Under [--dir],
    '#static', '#custom' or a named framework the result has no [plugins]
    key, even when the named framework's settings recommend plugins. *)
Theorem plugins_come_from_auto_only W devConfig options project projectDir st s st' :
  detectServerSettings W devConfig options project projectDir st = (Ok s, st') ->
  is_Some (s !! "plugins")
  <-> truthy (prop options "dir") = false /\ prop devConfig "framework" = JStr "#auto".
Proof.
  intros H.
  apply detectServerSettings_Ok_inv in H as (settings & st1 & st2 & _ & Hb & H).
  apply finishSettings_Ok_inv in H as (port & fp & https & -> & _).
  rewrite finished_lookup_other by discriminate.
  apply branchSettings_plugins in Hb.
  destruct (truthy (prop options "dir")); cbn [negb andb] in Hb.
  - rewrite Hb. split; [intros [x Hx]; discriminate Hx | intros [Hd _]; discriminate Hd].
  - destruct (strict_eq (prop devConfig "framework") (JStr "#auto")) eqn:Hauto.
    + apply strict_eq_JStr_true in Hauto. split; [intros _; split; [reflexivity | exact Hauto] | intros _; exact Hb].
    + rewrite Hb. split; [intros [x Hx]; discriminate Hx|].
      intros [_ Hfw]. rewrite Hfw in Hauto. discriminate Hauto.
Qed.

Lemma plugins_come_from_auto_only_witness :
  let run := detectServerSettings machine_with_next next_config ∅ next_project "/site" initial in
  run = (Ok (settings_of run), snd run)
  /\ ~ is_Some (settings_of run !! "plugins").
Proof.
  intros run.
  assert (Hrun : run = (Ok (settings_of run), snd run)) by (vm_compute; reflexivity).
  split; [exact Hrun|].
  intros Hsome.
  apply (plugins_come_from_auto_only _ _ _ _ _ _ _ _ Hrun) in Hsome as [_ Hfw].
  discriminate Hfw.
Defined.

Lemma autoSettings_single_match W devConfig options project projectDir only st :
  truthy (hasCommandAndTargetPort devConfig) = false ->
  detectable W project = [only] ->
  autoSettings W devConfig options project projectDir st
  = (settings <-
       (validateFrameworkConfig devConfig ;;
        mergeSettings W devConfig (Some (getSettingsFromDetectedSettings only))) ;;
     ret (<["plugins" := prop (getSettingsFromDetectedSettings only) "plugins"]> settings))
      {| probes := probes st; trace := (trace st ++ [EvBuildSettings])%list |}.
Proof.
  intros Hrun Hone. unfold autoSettings. rewrite Hrun. cbn [negb].
  unfold detectFrameworkSettings. rewrite Hone.
  unfold bind at 1 2. unfold emit, ret. reflexivity.
Qed.

(** X10: on the '#auto' path with detection run and exactly one match,
    the [plugins] of a successful resolution are the plugins to install
    automatically for that match: its recommended plugins that are not
    installed yet, and '@netlify/plugin-nextjs' whenever it is
    recommended. *)
Theorem single_match_plugins W devConfig options project projectDir only st s st' :
  prop devConfig "framework" = JStr "#auto" ->
  truthy (prop options "dir") = false ->
  truthy (hasCommandAndTargetPort devConfig) = false ->
  detectable W project = [only] ->
  detectServerSettings W devConfig options project projectDir st = (Ok s, st') ->
  s !! "plugins"
  = Some (JArr (JStr <$> getPluginsToAutoInstall
                           (BuildInfo.plugins_from_config_file only)
                           (BuildInfo.plugins_recommended only))).
Proof.
  intros Hf Hd Hrun Hone H.
  apply detectServerSettings_Ok_inv in H as (settings & st1 & st2 & Hv & Hb & H).
  apply finishSettings_Ok_inv in H as (port & fp & https & -> & _).
  rewrite finished_lookup_other by discriminate.
  unfold branchSettings in Hb. rewrite Hd, Hf in Hb. cbn [strict_eq] in Hb.
  change (String.eqb "#auto" "#static") with false in Hb.
  change (String.eqb "#auto" "#auto") with true in Hb. cbn [orb] in Hb.
  rewrite (autoSettings_single_match _ _ _ _ _ only _ Hrun Hone) in Hb.
  inv_bind Hb as inner st3 Hinner. injection Hb as <- <-.
  rewrite lookup_insert_eq. reflexivity.
Qed.

Lemma single_match_plugins_witness :
  let run := detectServerSettings machine_with_next auto_config ∅ next_project "/site" initial in
  settings_of run !! "plugins"
  = Some (JArr [JStr "@netlify/plugin-nextjs"; JStr "lighthouse"]).
Proof.
  intros run.
  assert (Hrun : run = (Ok (settings_of run), snd run)) by (vm_compute; reflexivity).
  assert (Hdir : truthy (prop (∅ : obj) "dir") = false) by reflexivity.
  rewrite (single_match_plugins machine_with_next auto_config ∅ next_project "/site"
             next_settings initial _ _ eq_refl Hdir eq_refl eq_refl Hrun).
  reflexivity.
Defined.

(** *** Plugins added to the configuration *)

(** X11: [getConfigWithPlugins] returns the configuration untouched when
    the settings carry no plugins; in particular for every resolution that
    did not go through the '#auto' path. *)
Theorem getConfigWithPlugins_leaves_config_alone
    W devConfig options project projectDir st s st' config :
  detectServerSettings W devConfig options project projectDir st = (Ok s, st') ->
  truthy (prop options "dir") = true \/ prop devConfig "framework" <> JStr "#auto" ->
  getConfigWithPlugins config s = Ok config.
Proof.
  intros H Hcase.
  apply detectServerSettings_Ok_inv in H as (settings & st1 & st2 & _ & Hb & H).
  apply finishSettings_Ok_inv in H as (port & fp & https & -> & _).
  apply branchSettings_plugins in Hb.
  assert (Hnone : finished devConfig settings port fp https !! "plugins" = None).
  { rewrite finished_lookup_other by discriminate.
    destruct Hcase as [Hdir | Hfw].
    - rewrite Hdir in Hb. exact Hb.
    - rewrite (strict_eq_JStr_false _ _ Hfw), andb_false_r in Hb. exact Hb. }
  unfold getConfigWithPlugins. rewrite (prop_unset _ _ Hnone). reflexivity.
Qed.

Lemma getConfigWithPlugins_leaves_config_alone_witness :
  let run := detectServerSettings machine_with_next next_config ∅ next_project "/site" initial in
  getConfigWithPlugins config_with_cache (settings_of run) = Ok config_with_cache.
Proof.
  intros run.
  assert (Hrun : run = (Ok (settings_of run), snd run)) by (vm_compute; reflexivity).
  apply (getConfigWithPlugins_leaves_config_alone _ _ _ _ _ _ _ _ _ Hrun).
  right. discriminate.
Defined.

Lemma packages_of_objects (plugins : list jsval) :
  Forall (fun plugin => exists (o : obj) name,
              plugin = JObj o /\ prop o "package" = JStr name) plugins ->
  packages_of plugins = Ok (JStr <$> package_names plugins).
Proof.
  induction 1 as [|plugin rest (o & name & -> & Hname) _ IH]; [reflexivity|].
  cbn [packages_of package_of]. rewrite IH, Hname.
  unfold package_names. cbn [omap list_omap]. rewrite Hname. reflexivity.
Qed.

Lemma has_names (existing : list string) name :
  has (JStr <$> existing) (JStr name) = includes existing name.
Proof.
  unfold has, includes. induction existing as [|x rest IH]; [reflexivity|].
  rewrite fmap_cons. cbn [existsb strict_eq]. rewrite IH. reflexivity.
Qed.

Lemma newPlugins_names (existing names : list string) :
  newPlugins (JStr <$> existing) (JStr <$> names)
  = (fun name => config_plugin (JStr name))
    <$> List.filter (fun name => negb (includes existing name)) names.
Proof.
  unfold newPlugins. induction names as [|name rest IH]; [reflexivity|].
  rewrite fmap_cons. cbn [List.filter]. rewrite has_names.
  destruct (includes existing name); cbn [negb].
  - exact IH.
  - rewrite !fmap_cons. f_equal. exact IH.
Qed.

Lemma package_names_app l1 l2 :
  package_names (l1 ++ l2) = (package_names l1 ++ package_names l2)%list.
Proof. apply omap_app. Qed.

Lemma prop_insert_eq (o : obj) k v : prop (<[k := v]> o) k = v.
Proof. unfold prop. rewrite lookup_insert_eq. reflexivity. Qed.

Lemma package_names_config_plugin (names : list string) :
  package_names ((fun name => config_plugin (JStr name)) <$> names) = names.
Proof.
  induction names as [|name rest IH]; [reflexivity|].
  rewrite fmap_cons. unfold package_names in *. cbn [omap list_omap].
  unfold config_plugin at 1. rewrite prop_insert_eq. f_equal. exact IH.
Qed.

(** X12: when the configuration declares its plugins as objects with a
    [package] name and the settings list plugin names, [getConfigWithPlugins]
    returns the configuration with the not yet declared names put in front
    of the declared plugins, which are kept as they are.  No declared
    package is added again, and the result names no package twice if
    neither the settings nor the configuration did. *)
Theorem getConfigWithPlugins_adds_undeclared_plugins
    (config settings : obj) (declared : list jsval) (names : list string) :
  prop config "plugins" = JArr declared ->
  Forall (fun plugin => exists (o : obj) name,
              plugin = JObj o /\ prop o "package" = JStr name) declared ->
  prop settings "plugins" = JArr (JStr <$> names) ->
  exists added,
    getConfigWithPlugins config settings
    = Ok (<["plugins" := JArr (added ++ declared)]> config)
    /\ package_names added
       = List.filter (fun name => negb (includes (package_names declared) name)) names
    /\ (forall name, In name (package_names added) -> ~ In name (package_names declared))
    /\ (NoDup names -> NoDup (package_names declared) ->
        NoDup (package_names (added ++ declared))).
Proof.
  intros Hconfig Hobjects Hsettings.
  exists ((fun name => config_plugin (JStr name))
          <$> List.filter (fun name => negb (includes (package_names declared) name)) names).
  assert (Hnot : forall name,
             In name (List.filter (fun name => negb (includes (package_names declared) name))
                        names) ->
             ~ In name (package_names declared)).
  { intros name Hin. apply List.filter_In in Hin as [_ Hno].
    apply negb_true_iff in Hno. intros Hd. apply includes_In in Hd. congruence. }
  split; [|split; [apply package_names_config_plugin | split]].
  - unfold getConfigWithPlugins. rewrite Hsettings, Hconfig. cbn [truthy negb or_if_undefined].
    rewrite (packages_of_objects _ Hobjects), newPlugins_names. reflexivity.
  - intros name. rewrite package_names_config_plugin. apply Hnot.
  - intros Hnames Hdeclared. rewrite package_names_app, package_names_config_plugin.
    apply NoDup_ListNoDup. apply List.NoDup_app.
    + apply List.NoDup_filter. apply NoDup_ListNoDup. exact Hnames.
    + apply NoDup_ListNoDup. exact Hdeclared.
    + intros name Hin Hd. exact (Hnot name Hin Hd).
Qed.

Lemma getConfigWithPlugins_adds_undeclared_plugins_witness :
  exists added,
    getConfigWithPlugins config_with_cache settings_with_plugins
    = Ok (<["plugins" := JArr (added ++ [declared_plugin "cache"])]> config_with_cache)
    /\ package_names added = ["@netlify/plugin-nextjs"].
Proof.
  destruct (getConfigWithPlugins_adds_undeclared_plugins
              config_with_cache settings_with_plugins [declared_plugin "cache"]
              ["@netlify/plugin-nextjs"; "cache"]) as (added & Hrun & Hadded & _).
  - reflexivity.
  - repeat constructor. eexists _, "cache". split; reflexivity.
  - reflexivity.
  - exists added. split; [exact Hrun|]. rewrite Hadded. reflexivity.
Defined.

(** X13: a configuration without a [plugins] entry makes
    [getConfigWithPlugins] throw a type error as soon as the settings
    carry a plugin list, even an empty one: the default taken for the
    missing entry is not the value spread into the result. *)
Theorem getConfigWithPlugins_needs_declared_plugins (config settings : obj) names :
  prop config "plugins" = JUndefined ->
  prop settings "plugins" = JArr names ->
  getConfigWithPlugins config settings
  = Throw (TypeError [Plain "config.plugins is not iterable"]).
Proof.
  intros Hconfig Hsettings. unfold getConfigWithPlugins.
  rewrite Hsettings, Hconfig. reflexivity.
Qed.

Lemma getConfigWithPlugins_needs_declared_plugins_witness :
  getConfigWithPlugins ∅ {["plugins" := JArr []]}
  = Throw (TypeError [Plain "config.plugins is not iterable"]).
Proof.
  apply (getConfigWithPlugins_needs_declared_plugins ∅ {["plugins" := JArr []]} []);
    reflexivity.
Defined.

(** *** Runs that cannot fail *)



Lemma returns_weaken {A} (Q R : A -> Prop) (c : M A) :
  returns Q c -> (forall a, Q a -> R a) -> returns R c.
Proof.
  intros Hc HQR st. destruct (Hc st) as (a & st' & Hrun & Ha). eauto.
Qed.











(** *** Merging when a server can be started *)

Lemma quiet_or_default_dist_run W a b st d st' :
  or_default_dist W a b st = (Ok d, st') ->
  probes st' = probes st /\ port_events (trace st') = port_events (trace st).
Proof. apply quiet_Ok, quiet_or_default_dist. Qed.

Lemma or_default_dist_Ok_inv W a b st d st' :
  or_default_dist W a b st = (Ok d, st') ->
  d = if truthy a then a else if truthy b then b else JStr (cwd W).
Proof.
  unfold or_default_dist. destruct (truthy a); [intros [= <- _]; reflexivity|].
  destruct (truthy b); [intros [= <- _]; reflexivity|].
  intros H. inv_bind H as dist st1 Hd. injection H as <- _.
  unfold getDefaultDist in Hd.
  inv_bind Hd as u1 s1 H1. inv_bind Hd as u2 s2 H2. inv_bind Hd as u3 s3 H3.
  injection Hd as <- _. reflexivity.
Qed.

(** X15: when a command and a port are at hand (each from the devConfig
    override or else from the framework's settings), [mergeSettings] always
    succeeds, with [useStaticServer = false]; the devConfig's [command],
    [targetPort] and [publish] win over the framework's [command],
    [frameworkPort] and [dist]; and no port is probed or acquired. *)
Theorem mergeSettings_prefers_overrides W devConfig (detected : obj) st :
  truthy (js_or (prop devConfig "command") (prop detected "command")) = true ->
  truthy (js_or (prop devConfig "targetPort") (prop detected "frameworkPort")) = true ->
  exists s st',
    mergeSettings W devConfig (Some detected) st = (Ok s, st')
    /\ s !! "useStaticServer" = Some (JBool false)
    /\ s !! "command"
       = Some (if truthy (prop devConfig "command")
               then prop devConfig "command" else prop detected "command")
    /\ s !! "frameworkPort"
       = Some (if truthy (prop devConfig "targetPort")
               then prop devConfig "targetPort" else prop detected "frameworkPort")
    /\ s !! "dist"
       = Some (if truthy (prop devConfig "publish") then prop devConfig "publish"
               else if truthy (prop detected "dist") then prop detected "dist"
               else JStr (cwd W))
    /\ probes st' = probes st
    /\ port_events (trace st') = port_events (trace st).
Proof.
  intros Hc Hp. unfold mergeSettings. cbv zeta.
  change (default ∅ (Some detected)) with detected.
  rewrite truthy_js_and, Hc, Hp. cbn [andb negb].
  destruct (or_default_dist_Ok W (prop devConfig "publish") (prop detected "dist") st)
    as (d & st1 & Hd).
  exists (<["command" := js_or (prop devConfig "command") (prop detected "command")]>
          (<["frameworkPort" := js_or (prop devConfig "targetPort")
                                      (prop detected "frameworkPort")]>
          (<["dist" := d]>
          (<["framework" := prop detected "framework"]>
          (<["env" := prop detected "env"]>
          (<["pollingStrategies" := or_if_undefined (prop detected "pollingStrategies")
                                      (JArr [])]>
          (<["useStaticServer" := JBool false]> ∅))))))), st1.
  split; [|split; [|split; [|split; [|split]]]].
  - unfold bind at 1. unfold ret at 1. rewrite (bind_Ok _ _ _ _ _ Hd). reflexivity.
  - rewrite !lookup_insert_ne by discriminate. apply lookup_insert_eq.
  - apply lookup_insert_eq.
  - rewrite !lookup_insert_ne by discriminate. apply lookup_insert_eq.
  - rewrite !lookup_insert_ne by discriminate. rewrite lookup_insert_eq.
    rewrite (or_default_dist_Ok_inv _ _ _ _ _ _ Hd). reflexivity.
  - exact (quiet_or_default_dist_run _ _ _ _ _ _ Hd).
Qed.

Lemma mergeSettings_prefers_overrides_witness :
  exists s st',
    mergeSettings machine_with_next
      (<["targetPort" := JNum 4000]> auto_config)
      (Some (getSettingsFromDetectedSettings next_settings)) initial
    = (Ok s, st')
    /\ s !! "useStaticServer" = Some (JBool false)
    /\ s !! "command" = Some (JStr "next dev")
    /\ s !! "frameworkPort" = Some (JNum 4000)
    /\ s !! "dist" = Some (JStr ".next")
    /\ probes st' = probes initial
    /\ port_events (trace st') = port_events (trace initial).
Proof.
  exact (mergeSettings_prefers_overrides machine_with_next
           (<["targetPort" := JNum 4000]> auto_config)
           (getSettingsFromDetectedSettings next_settings) initial eq_refl eq_refl).
Defined.

(** *** Named frameworks *)

Lemma branchSettings_named W devConfig options project projectDir id :
  truthy (prop options "dir") = false ->
  prop devConfig "framework" = JStr id ->
  id <> EmptyString -> id <> "#static" -> id <> "#auto" -> id <> "#custom" ->
  branchSettings W devConfig options project projectDir
  = (validateFrameworkConfig devConfig ;; handleForcedFramework W devConfig).
Proof.
  intros Hd Hf Hne Hs Ha Hc. unfold branchSettings. rewrite Hd, Hf. cbn [strict_eq truthy orb].
  apply String.eqb_neq in Hne, Hs, Ha, Hc. rewrite Hne, Hs, Ha, Hc. reflexivity.
Qed.

(** X16: a named framework that the registry does not know makes
    [detectServerSettings] fail with the registry's error right after the
    configuration checks: the project is not inspected and no port is
    probed. *)
Theorem unknown_framework_fails_before_ports
    W devConfig options project projectDir st id message :
  truthy (prop options "dir") = false ->
  prop devConfig "framework" = JStr id ->
  id <> EmptyString -> id <> "#static" -> id <> "#auto" -> id <> "#custom" ->
  frameworkConfig_valid devConfig = true ->
  getFramework W (JStr id) = inr message ->
  detectServerSettings W devConfig options project projectDir st
  = (Throw (Error [Plain message]),
     {| probes := probes st; trace := (trace st ++ [EvGetFramework (JStr id)])%list |}).
Proof.
  intros Hd Hf Hne Hs Ha Hc Hvalid Hunknown. unfold detectServerSettings.
  rewrite (bind_Ok _ _ _ _ _ (validateStringProperty_string _ _ _ st Hf)).
  apply bind_Throw.
  rewrite (branchSettings_named _ _ _ _ _ id) by assumption.
  rewrite (bind_Ok _ _ _ _ _ (validateFrameworkConfig_valid _ st Hvalid)).
  unfold handleForcedFramework. rewrite Hf, Hunknown. reflexivity.
Qed.

Lemma unknown_framework_fails_before_ports_witness :
  detectServerSettings (machine []) misspelt_framework_config ∅ empty_project "/site" initial
  = (Throw (Error [Plain "Invalid framework"]),
     {| probes := 0; trace := [EvGetFramework (JStr "gatsbyy")] |}).
Proof.
  apply (unknown_framework_fails_before_ports (machine []) misspelt_framework_config ∅
           empty_project "/site" initial "gatsbyy" "Invalid framework");
    try reflexivity; discriminate.
Defined.

(** *** The shape of the result *)

Ltac other_key Hk :=
  rewrite ?lookup_insert_ne by (intros <-; apply Hk; simpl; tauto).

Lemma spread_command_keys (c : jsval) k :
  ~ In k branch_keys ->
  spread (js_and c (JObj {["command" := c]})) ∅ !! k = None.
Proof.
  intros Hk. apply spread_command_lookup_ne. intros ->. apply Hk. simpl. tauto.
Qed.

Lemma branchSettings_keys W devConfig options project projectDir st settings st' k :
  branchSettings W devConfig options project projectDir st = (Ok settings, st') ->
  ~ In k branch_keys ->
  settings !! k = None.
Proof.
  intros H Hk. unfold branchSettings in H.
  destruct (truthy (prop options "dir") || _).
  { apply handleStaticServer_Ok_inv in H as (dist & p & _ & ->).
    other_key Hk. apply spread_command_keys, Hk. }
  destruct (strict_eq _ (JStr "#auto")).
  { unfold autoSettings in H.
    inv_bind H as detected st1 Hdet. inv_bind H as inner st2 Hinner.
    injection H as <- <-. other_key Hk.
    destruct detected as [detected|].
    - inv_bind Hinner as u st3 Hv.
      apply mergeSettings_Ok_inv in Hinner as (? & ? & ? & ? & ? & ? & ? & ->).
      other_key Hk. apply lookup_empty.
    - inv_bind Hinner as u st3 Hl.
      apply handleStaticServer_Ok_inv in Hinner as (dist & p & _ & ->).
      other_key Hk. apply spread_command_keys, Hk. }
  destruct (strict_eq _ (JStr "#custom")).
  { inv_bind H as u st1 Hv.
    apply handleCustomFramework_Ok_inv in H as (dist & ->).
    other_key Hk. apply lookup_empty. }
  destruct (truthy (prop devConfig "framework")).
  { inv_bind H as u st1 Hv.
    unfold handleForcedFramework in H. inv_bind H as u' st2 He.
    destruct (getFramework W _); [|discriminate].
    apply mergeSettings_Ok_inv in H as (? & ? & ? & ? & ? & ? & ? & ->).
    other_key Hk. apply lookup_empty. }
  injection H as <- <-. apply lookup_empty.
Qed.

Lemma finishSettings_shape W devConfig projectDir settings st s st' :
  finishSettings W devConfig projectDir settings st = (Ok s, st') ->
  exists port functionsPort https,
    s = finished devConfig settings port functionsPort https
    /\ (is_Some functionsPort
        <-> truthy (js_or (js_or (prop devConfig "functions") (prop settings "functions"))
                          (internalFunctionsDir W projectDir)) = true)
    /\ (is_Some https <-> truthy (prop devConfig "https") = true).
Proof.
  unfold finishSettings. intros H.
  inv_bind H as u0 st0 Hc0.
  inv_bind H as port st1 Hc1.
  inv_bind H as internal st2 Hc2.
  unfold getInternalFunctionsDir, bind, emit, ret in Hc2. injection Hc2 as <- <-.
  inv_bind H as result st3 Hresult.
  exists port.
  assert (Hno : forall A, ~ is_Some (@None A)) by (intros A [x Hx]; discriminate Hx).
  destruct (truthy (js_or _ (internalFunctionsDir W projectDir))).
  - inv_bind Hresult as fp st4 Hfp. injection Hresult as <- <-.
    destruct (truthy (prop devConfig "https")).
    + inv_bind H as https st5 Hh. injection H as <- <-.
      exists (Some (JNum fp)), (Some https). repeat split; eauto.
    + injection H as <- <-. exists (Some (JNum fp)), None.
      repeat split; eauto; try discriminate. intros Hs. destruct (Hno _ Hs).
  - injection Hresult as <- <-.
    destruct (truthy (prop devConfig "https")).
    + inv_bind H as https st5 Hh. injection H as <- <-.
      exists None, (Some https).
      repeat split; eauto; try discriminate. intros Hs. destruct (Hno _ Hs).
    + injection H as <- <-. exists None, None.
      repeat split; eauto; try discriminate; intros Hs; destruct (Hno _ Hs).
Qed.

Lemma finished_lookup_https devConfig settings port functionsPort https :
  settings !! "https" = None ->
  finished devConfig settings port functionsPort https !! "https" = https.
Proof.
  intros Hnone. unfold finished. destruct https as [v|]; simpl.
  - apply lookup_insert_eq.
  - rewrite lookup_add_opt_ne by discriminate.
    rewrite !lookup_insert_ne by discriminate. exact Hnone.
Qed.

Lemma finished_lookup_functionsPort_opt devConfig settings port functionsPort https :
  settings !! "functionsPort" = None ->
  finished devConfig settings port functionsPort https !! "functionsPort" = functionsPort.
Proof.
  intros Hnone. unfold finished. rewrite lookup_add_opt_ne by discriminate.
  destruct functionsPort as [v|]; simpl.
  - apply lookup_insert_eq.
  - rewrite !lookup_insert_ne by discriminate. exact Hnone.
Qed.

(** X17: the settings a successful resolution returns have no key
    outside the fourteen of [ServerSettings]; [port], [jwtSecret],
    [jwtRolePath] and [functions] are always present; [functionsPort] is
    present exactly when a functions directory is configured or the
    internal one exists, and [https] exactly when [devConfig.https] is
    set. *)
Theorem result_keys W devConfig options project projectDir st s st' :
  detectServerSettings W devConfig options project projectDir st = (Ok s, st') ->
  (forall k, is_Some (s !! k) -> In k server_settings_keys)
  /\ is_Some (s !! "port") /\ is_Some (s !! "jwtSecret")
  /\ is_Some (s !! "jwtRolePath") /\ is_Some (s !! "functions")
  /\ (is_Some (s !! "functionsPort")
      <-> truthy (js_or (prop devConfig "functions") (internalFunctionsDir W projectDir))
          = true)
  /\ (is_Some (s !! "https") <-> truthy (prop devConfig "https") = true).
Proof.
  intros H.
  apply detectServerSettings_Ok_inv in H as (settings & st1 & st2 & _ & Hb & H).
  pose proof (fun k => branchSettings_keys _ _ _ _ _ _ _ _ k Hb) as Hkeys.
  apply finishSettings_shape in H as (port & fp & https & -> & Hfp & Hhttps).
  assert (Hfun : settings !! "functions" = None)
    by (apply Hkeys; simpl; intuition discriminate).
  rewrite (prop_unset _ _ Hfun), js_or_undefined_r in Hfp.
  split; [|split; [|split; [|split; [|split; [|split]]]]].
  - intros k Hsome.
    destruct (in_dec string_dec k server_settings_keys) as [Hin | Hout]; [exact Hin|].
    exfalso. unfold server_settings_keys in Hout. rewrite in_app_iff in Hout.
    assert (Hbranch : ~ In k branch_keys) by tauto.
    rewrite finished_lookup_other, (Hkeys k Hbranch) in Hsome
      by (intros ->; apply Hout; right; simpl; tauto).
    destruct Hsome as [x Hx]. discriminate Hx.
  - rewrite finished_lookup_port. eexists. reflexivity.
  - unfold finished. rewrite !lookup_add_opt_ne by discriminate.
    rewrite !lookup_insert_ne by discriminate. rewrite lookup_insert_eq.
    eexists. reflexivity.
  - unfold finished. rewrite !lookup_add_opt_ne by discriminate.
    rewrite !lookup_insert_ne by discriminate. rewrite lookup_insert_eq.
    eexists. reflexivity.
  - unfold finished. rewrite !lookup_add_opt_ne by discriminate.
    rewrite lookup_insert_eq. eexists. reflexivity.
  - rewrite finished_lookup_functionsPort_opt
      by (apply Hkeys; simpl; intuition discriminate).
    exact Hfp.
  - rewrite finished_lookup_https by (apply Hkeys; simpl; intuition discriminate).
    exact Hhttps.
Qed.

Lemma result_keys_witness :
  let run :=
    detectServerSettings machine_with_certificate secure_config ∅ empty_project
      "/site" initial in
  run = (Ok (settings_of run), snd run)
  /\ is_Some (settings_of run !! "functionsPort")
  /\ is_Some (settings_of run !! "https")
  /\ ~ is_Some (settings_of run !! "frameworkHost").
Proof.
  intros run.
  assert (Hrun : run = (Ok (settings_of run), snd run)) by (vm_compute; reflexivity).
  destruct (result_keys _ _ _ _ _ _ _ _ Hrun) as (Hkeys & _ & _ & _ & _ & Hfp & Hhttps).
  split; [exact Hrun|]. split; [apply Hfp; reflexivity|]. split; [apply Hhttps; reflexivity|].
  intros Hsome. apply Hkeys in Hsome. simpl in Hsome. intuition discriminate.
Defined.

(** *** The directory served *)

Lemma handleStaticServer_dist W devConfig options projectDir st settings st' :
  handleStaticServer W devConfig options projectDir st = (Ok settings, st') ->
  settings !! "dist"
  = Some (if truthy (prop options "dir") then prop options "dir"
          else if truthy (prop devConfig "publish") then prop devConfig "publish"
          else JStr (cwd W)).
Proof.
  unfold handleStaticServer. intros H.
  inv_bind H as u0 st0 Hc0. inv_bind H as u1 st1 Hc1. inv_bind H as u2 st2 Hc2.
  inv_bind H as dist st3 Hdist. inv_bind H as relative st4 Hc4.
  inv_bind H as u5 st5 Hc5. inv_bind H as p st6 Hc6. injection H as <- <-.
  rewrite lookup_insert_eq. rewrite (or_default_dist_Ok_inv _ _ _ _ _ _ Hdist). reflexivity.
Qed.

Lemma mergeSettings_dist W devConfig frameworkSettings st settings st' :
  mergeSettings W devConfig frameworkSettings st = (Ok settings, st') ->
  exists d, settings !! "dist" = Some d
            /\ (truthy (prop devConfig "publish") = true -> d = prop devConfig "publish").
Proof.
  unfold mergeSettings. cbv zeta. intros H.
  inv_bind H as port st1 Hport. inv_bind H as dist st2 Hdist. injection H as <- <-.
  exists dist. rewrite !lookup_insert_ne by discriminate. rewrite lookup_insert_eq.
  split; [reflexivity|]. intros Hp.
  rewrite (or_default_dist_Ok_inv _ _ _ _ _ _ Hdist), Hp. reflexivity.
Qed.

Lemma handleCustomFramework_dist W devConfig st settings st' :
  handleCustomFramework W devConfig st = (Ok settings, st') ->
  exists d, settings !! "dist" = Some d
            /\ (truthy (prop devConfig "publish") = true -> d = prop devConfig "publish").
Proof.
  unfold handleCustomFramework. destruct (negb _); [discriminate|]. intros H.
  inv_bind H as dist st1 Hdist. injection H as <- <-.
  exists dist. rewrite !lookup_insert_ne by discriminate. rewrite lookup_insert_eq.
  split; [reflexivity|]. intros Hp.
  rewrite (or_default_dist_Ok_inv _ _ _ _ _ _ Hdist), Hp. reflexivity.
Qed.

(** X18: whenever [--dir] is given or a [framework] is configured, a
    successful resolution names a directory to serve: the [--dir] value if
    there is one, and otherwise [devConfig.publish] if that is set, on
    every path alike (static, '#auto', '#custom', named framework). *)
Theorem served_directory W devConfig options project projectDir st s st' :
  detectServerSettings W devConfig options project projectDir st = (Ok s, st') ->
  truthy (prop options "dir") = true \/ truthy (prop devConfig "framework") = true ->
  exists d,
    s !! "dist" = Some d
    /\ (truthy (prop options "dir") = true -> d = prop options "dir")
    /\ (truthy (prop options "dir") = false ->
        truthy (prop devConfig "publish") = true -> d = prop devConfig "publish").
Proof.
  intros H Hcase.
  apply detectServerSettings_Ok_inv in H as (settings & st1 & st2 & _ & Hb & H).
  apply finishSettings_Ok_inv in H as (port & fp & https & -> & _).
  assert (Hgoal : exists d,
             settings !! "dist" = Some d
             /\ (truthy (prop options "dir") = true -> d = prop options "dir")
             /\ (truthy (prop options "dir") = false ->
                 truthy (prop devConfig "publish") = true -> d = prop devConfig "publish")).
  { unfold branchSettings in Hb.
    destruct (truthy (prop options "dir")) eqn:Hdir; cbn [orb] in Hb.
    { apply handleStaticServer_dist in Hb. rewrite Hdir in Hb.
      eexists. split; [exact Hb|]. split; [reflexivity | discriminate]. }
    assert (Hstatic : forall (served : obj) st3 st4,
               handleStaticServer W devConfig options projectDir st3 = (Ok served, st4) ->
               exists d, served !! "dist" = Some d
                 /\ (false = true -> d = prop options "dir")
                 /\ (false = false -> truthy (prop devConfig "publish") = true ->
                     d = prop devConfig "publish")).
    { intros served st3 st4 Hs. apply handleStaticServer_dist in Hs. rewrite Hdir in Hs.
      eexists. split; [exact Hs|]. split; [discriminate|].
      intros _ Hp. rewrite Hp. reflexivity. }
    assert (Hother : forall d,
               (truthy (prop devConfig "publish") = true -> d = prop devConfig "publish") ->
               (false = true -> d = prop options "dir")
               /\ (false = false -> truthy (prop devConfig "publish") = true ->
                   d = prop devConfig "publish")).
    { intros d Hd. split; [discriminate | intros _; exact Hd]. }
    destruct (strict_eq _ (JStr "#static")); [exact (Hstatic _ _ _ Hb)|].
    destruct (strict_eq _ (JStr "#auto")).
    { unfold autoSettings in Hb.
      inv_bind Hb as detected st3 Hdet. inv_bind Hb as inner st4 Hinner.
      injection Hb as <- <-. rewrite lookup_insert_ne by discriminate.
      destruct detected as [detected|].
      - inv_bind Hinner as u st5 Hv.
        apply mergeSettings_dist in Hinner as (d & Hd & Hp). exists d. auto.
      - inv_bind Hinner as u st5 Hl. exact (Hstatic _ _ _ Hinner). }
    destruct (strict_eq _ (JStr "#custom")).
    { inv_bind Hb as u st3 Hv.
      apply handleCustomFramework_dist in Hb as (d & Hd & Hp). exists d. auto. }
    destruct (truthy (prop devConfig "framework")).
    { inv_bind Hb as u st3 Hv. unfold handleForcedFramework in Hb.
      inv_bind Hb as u' st4 He. destruct (getFramework W _); [|discriminate].
      apply mergeSettings_dist in Hb as (d & Hd & Hp). exists d. auto. }
    destruct Hcase; discriminate. }
  destruct Hgoal as (d & Hd & Hrest). exists d. split; [|exact Hrest].
  rewrite finished_lookup_other by discriminate. exact Hd.
Qed.

Lemma served_directory_witness :
  let run :=
    detectServerSettings (machine []) publish_config dir_options empty_project
      "/site" initial in
  exists d,
    settings_of run !! "dist" = Some d
    /\ (truthy (prop dir_options "dir") = true -> d = prop dir_options "dir")
    /\ (truthy (prop dir_options "dir") = false ->
        truthy (prop publish_config "publish") = true -> d = prop publish_config "publish").
Proof.
  intros run.
  assert (Hrun : run = (Ok (settings_of run), snd run)) by (vm_compute; reflexivity).
  apply (served_directory _ _ _ _ _ _ _ _ Hrun). left. reflexivity.
Defined.

(** ** Properties of the build timeline *)

Lemma cleanInternalDirectory_clean S basePath st :
  (forall path, Build.rm_error S path = None) ->
  Build.cleanInternalDirectory S basePath st
  = (Ok tt,
     {| Build.settings := Build.settings st;
        Build.trace :=
          (Build.trace st
           ++ [Build.Rm (Build.resolve S basePath
                           (Build.getPathInProject S [Build.INTERNAL_FUNCTIONS_FOLDER S]));
               Build.Rm (Build.resolve S basePath
                           (Build.getPathInProject S [Build.INTERNAL_EDGE_FUNCTIONS_FOLDER S]));
               Build.Rm (Build.resolve S basePath
                           (Build.getPathInProject S ["netlify.toml"]))])%list |}).
Proof.
  intros Hrm. unfold Build.cleanInternalDirectory. cbn [List.map fold_right omap list_omap].
  rewrite !Hrm. unfold Build.bind, Build.emit, Build.ret. cbn [Build.settings Build.trace].
  rewrite <- !app_assoc. reflexivity.
Qed.

Lemma copyConfig_run S configPath siteRoot st :
  Build.copyConfig S configPath siteRoot st
  = (Ok (Build.resolve S siteRoot (Build.getPathInProject S ["netlify.toml"])),
     {| Build.settings := Build.settings st;
        Build.trace :=
          (Build.trace st
           ++ [Build.CopyFile configPath
                 (Build.resolve S siteRoot (Build.getPathInProject S ["netlify.toml"]))
                 (Build.copies S configPath
                    (Build.resolve S siteRoot (Build.getPathInProject S ["netlify.toml"])))])%list |}).
Proof.
  unfold Build.copyConfig, Build.bind, Build.catch, Build.emit, Build.ret, Build.throw.
  cbn [Build.settings Build.trace].
  destruct (Build.copies S configPath _); reflexivity.
Qed.

Lemma build_prefix S cachedConfig options env projectDir siteRoot sharedOptions st :
  Build.getBuildOptions cachedConfig options projectDir = Ok sharedOptions ->
  (forall path, Build.rm_error S path = None) ->
  Build.runBuildTimeline S cachedConfig options env projectDir siteRoot st
  = (let opts := BuildFacts.buildSiteOptions S sharedOptions siteRoot in
     Build.bind
       (if negb (truthy (Build.buildSite S opts))
        then Build.bind
               (Build.error "Could not start local server due to a build error")
               (fun _ => Build.ret ∅)
        else Build.bind
               (Build.devCommand S
                  (JObj (<["command" := JUndefined]>
                        (<["useStaticServer" := JBool true]> ∅))))
               (fun _ => Build.ret
                           {["configPath" :=
                               JStr (Build.resolve S siteRoot
                                       (Build.getPathInProject S ["netlify.toml"]))]}))
       Build.ret)
      {| Build.settings := Build.settings st;
         Build.trace :=
           (Build.trace st
            ++ BuildFacts.preparation S (prop cachedConfig "configPath") siteRoot
            ++ [Build.BuildSite (BuildFacts.buildSiteOptions S sharedOptions siteRoot)])%list |}.
Proof.
  intros Hshared Hrm.
  unfold Build.runBuildTimeline, Build.runNetlifyBuild. rewrite Hshared.
  unfold Build.lift. unfold Build.bind at 1. unfold Build.ret at 1.
  unfold Build.bind at 1. rewrite (cleanInternalDirectory_clean _ _ _ Hrm).
  unfold Build.bind at 1. rewrite copyConfig_run.
  unfold Build.bind at 1. unfold Build.emit at 1. cbn [Build.settings Build.trace].
  unfold BuildFacts.buildSiteOptions, BuildFacts.preparation. cbv zeta.
  rewrite <- !app_assoc. cbn [app].
  unfold Build.bind, Build.ret.
  destruct (negb _); [|];
    match goal with |- ?l = match ?r with _ => _ end => destruct r as [[?|?] ?] end;
    reflexivity.
Qed.

Lemma devCommand_run S settingsOverrides st :
  let merged := spread (or_if_undefined settingsOverrides (JObj ∅)) (Build.settings st) in
  Build.devCommand S settingsOverrides st
  = match Build.startFrameworkServer S merged with
    | inl e =>
        (Throw e,
         {| Build.settings := Build.settings st;
            Build.trace := (Build.trace st ++ [Build.StartFrameworkServer merged])%list |})
    | inr ipVersion =>
        (Ok tt,
         {| Build.settings :=
              <["frameworkHost" := BuildFacts.loopback ipVersion]> (Build.settings st);
            Build.trace := (Build.trace st ++ [Build.StartFrameworkServer merged])%list |})
    end.
Proof.
  intros merged. unfold Build.devCommand. cbv zeta. fold merged.
  unfold Build.bind, Build.read_settings, Build.emit. cbn [Build.settings Build.trace].
  fold merged. destruct (Build.startFrameworkServer S merged); reflexivity.
Qed.

(** X19: the callback handed to the build starts the framework server
    once, on a copy of the shared settings with the overrides applied, and
    writes to the shared settings object nothing but [frameworkHost]: '::1'
    when the server reports IP version 6, '127.0.0.1' otherwise.  When the
    server fails to start, the shared settings are left as they were. *)
Theorem devCommand_touches_frameworkHost_only S settingsOverrides st r st' :
  Build.devCommand S settingsOverrides st = (r, st') ->
  let merged := spread (or_if_undefined settingsOverrides (JObj ∅)) (Build.settings st) in
  Build.trace st' = (Build.trace st ++ [Build.StartFrameworkServer merged])%list
  /\ ((exists e, r = Throw e /\ Build.settings st' = Build.settings st)
      \/ (exists ipVersion host,
            r = Ok tt
            /\ Build.startFrameworkServer S merged = inr ipVersion
            /\ (host = JStr "::1" /\ ipVersion = JNum 6
                \/ host = JStr "127.0.0.1" /\ ipVersion <> JNum 6)
            /\ Build.settings st' = <["frameworkHost" := host]> (Build.settings st))).
Proof.
  intros H merged. rewrite devCommand_run in H. fold merged in H.
  destruct (Build.startFrameworkServer S merged) as [e | ipVersion] eqn:Hstart;
    injection H as <- <-; (split; [reflexivity|]).
  - left. exists e. split; reflexivity.
  - right. exists ipVersion, (BuildFacts.loopback ipVersion).
    split; [reflexivity|]. split; [reflexivity|]. split; [|reflexivity].
    unfold BuildFacts.loopback.
    destruct (strict_eq ipVersion (JNum 6)) eqn:Hsix.
    + left. split; [reflexivity|].
      destruct ipVersion; try discriminate Hsix. simpl in Hsix.
      apply Z.eqb_eq in Hsix. congruence.
    + right. split; [reflexivity|]. intros ->. discriminate Hsix.
Qed.

Lemma devCommand_touches_frameworkHost_only_witness :
  let run :=
    Build.devCommand (BuildFacts.example_surroundings true) JUndefined
      BuildFacts.before_build in
  Build.trace (snd run)
  = [Build.StartFrameworkServer BuildFacts.framework_settings]
  /\ Build.settings (snd run)
     = <["frameworkHost" := JStr "::1"]> BuildFacts.framework_settings.
Proof.
  intros run.
  destruct (devCommand_touches_frameworkHost_only
              (BuildFacts.example_surroundings true) JUndefined BuildFacts.before_build
              (fst run) (snd run) (surjective_pairing run)) as [Htrace Hsettings].
  split; [rewrite Htrace; vm_compute; reflexivity|].
  destruct Hsettings as [(e & He & _) | (ip & host & _ & Hip & Hhost & Hs)].
  - vm_compute in He. discriminate He.
  - rewrite Hs. injection Hip as <-.
    destruct Hhost as [[-> _] | [_ Hne]]; [reflexivity | congruence].
Defined.



Lemma static_settings_lookup (settings : obj) k :
  BuildFacts.static_settings settings !! k
  = if String.eqb k "command" then Some JUndefined
    else if String.eqb k "useStaticServer" then Some (JBool true)
    else settings !! k.
Proof.
  unfold BuildFacts.static_settings. rewrite lookup_union.
  destruct (String.eqb k "command") eqn:Hc.
  - apply String.eqb_eq in Hc as ->. rewrite lookup_insert_eq.
    destruct (settings !! "command"); reflexivity.
  - apply String.eqb_neq in Hc. rewrite lookup_insert_ne by congruence.
    destruct (String.eqb k "useStaticServer") eqn:Hu.
    + apply String.eqb_eq in Hu as ->. rewrite lookup_insert_eq.
      destruct (settings !! "useStaticServer"); reflexivity.
    + apply String.eqb_neq in Hu. rewrite lookup_insert_ne, lookup_empty by congruence.
      destruct (settings !! k); reflexivity.
Qed.

(** X21: a build that succeeds is followed by one start of the framework
    server, on the settings with [useStaticServer] forced to [true] and
    [command] to [undefined] and every other key as it was; the shared
    settings keep their own [command] and [useStaticServer] and gain
    [frameworkHost]; the path of the copied configuration is returned as
    [configPath]. *)
Theorem successful_build_serves_statically
    S cachedConfig options env projectDir siteRoot sharedOptions st ipVersion :
  Build.getBuildOptions cachedConfig options projectDir = Ok sharedOptions ->
  (forall path, Build.rm_error S path = None) ->
  truthy (Build.buildSite S (BuildFacts.buildSiteOptions S sharedOptions siteRoot)) = true ->
  Build.startFrameworkServer S (BuildFacts.static_settings (Build.settings st))
  = inr ipVersion ->
  Build.runBuildTimeline S cachedConfig options env projectDir siteRoot st
  = (Ok {["configPath" :=
            JStr (Build.resolve S siteRoot (Build.getPathInProject S ["netlify.toml"]))]},
     {| Build.settings :=
          <["frameworkHost" := BuildFacts.loopback ipVersion]> (Build.settings st);
        Build.trace :=
          (Build.trace st
           ++ BuildFacts.preparation S (prop cachedConfig "configPath") siteRoot
           ++ [Build.BuildSite (BuildFacts.buildSiteOptions S sharedOptions siteRoot);
               Build.StartFrameworkServer
                 (BuildFacts.static_settings (Build.settings st))])%list |})
  /\ BuildFacts.static_settings (Build.settings st) !! "useStaticServer" = Some (JBool true)
  /\ BuildFacts.static_settings (Build.settings st) !! "command" = Some JUndefined
  /\ (forall k, k <> "command" -> k <> "useStaticServer" ->
      BuildFacts.static_settings (Build.settings st) !! k = Build.settings st !! k).
Proof.
  intros Hshared Hrm Hok Hstart. split; [|split; [|split]].
  - rewrite (build_prefix _ _ _ _ _ _ _ _ Hshared Hrm).
    cbv zeta. rewrite Hok. cbn [negb].
    unfold Build.bind at 1 2. rewrite devCommand_run.
    cbn [or_if_undefined spread Build.settings Build.trace].
    change (<["command" := JUndefined]> (<["useStaticServer" := JBool true]> ∅)
            ∪ Build.settings st)
      with (BuildFacts.static_settings (Build.settings st)).
    rewrite Hstart. unfold Build.ret. rewrite <- !app_assoc. reflexivity.
  - rewrite static_settings_lookup. reflexivity.
  - rewrite static_settings_lookup. reflexivity.
  - intros k Hc Hu. rewrite static_settings_lookup.
    apply String.eqb_neq in Hc, Hu. rewrite Hc, Hu. reflexivity.
Qed.

Lemma successful_build_serves_statically_witness :
  let S := BuildFacts.example_surroundings true in
  let run :=
    Build.runBuildTimeline S BuildFacts.example_cachedConfig ∅ JUndefined "/site" "/site"
      BuildFacts.before_build in
  fst run = Ok {["configPath" := JStr "/site/.netlify/netlify.toml"]}
  /\ Build.settings (snd run)
     = <["frameworkHost" := JStr "::1"]> BuildFacts.framework_settings.
Proof.
  intros S run.
  assert (Hshared : exists sharedOptions,
             Build.getBuildOptions BuildFacts.example_cachedConfig ∅ "/site"
             = Ok sharedOptions) by (eexists; reflexivity).
  destruct Hshared as (sharedOptions & Hshared).
  destruct (successful_build_serves_statically S BuildFacts.example_cachedConfig ∅
              JUndefined "/site" "/site" sharedOptions BuildFacts.before_build (JNum 6)
              Hshared (fun _ => eq_refl) eq_refl eq_refl) as [Hrun _].
  unfold run. rewrite Hrun. split; reflexivity.
Defined.

